(** * LaTeX document server: text editing, templates, validation, outline

    A shallow embedding of [latex_server.py] (class [LaTeXServer]) and the
    properties of its six tools.  Python [str] values are modelled as
    [string], with the characters of code below 256 as [ascii]; Python
    [int] as [Z]; arguments that may be [None] as [option]; and the file
    system together with [pathlib] as an interface ([Platform]) that the
    tools are parametrised by.  Logging is left out. *)

From Stdlib Require Import String Ascii List ZArith Lia Bool Arith.
From Stdlib Require Import DecimalString Sorted.
Import ListNotations.

Local Open Scope list_scope.
Local Open Scope string_scope.

(** ** Python strings *)

Module PyStr.

(** The newline character, written ["\n"] in the source. *)
Definition nl : string := String "010" "".

(** Truth value of a [str]: empty strings are falsy. *)
Definition truthy (s : string) : bool := negb (s =? "").

(** Truth value of an [Optional[str]]: [None] and [""] are falsy. *)
Definition truthy_opt (s : option string) : bool :=
  match s with
  | None => false
  | Some s => truthy s
  end.

(** The string held by an [Optional[str]] known to be truthy. *)
Definition the (s : option string) : string :=
  match s with
  | None => ""
  | Some s => s
  end.

(** [sep.join(parts)]. *)
Definition join (sep : string) (parts : list string) : string :=
  String.concat sep parts.

(** [s[n:]]. *)
Fixpoint drop (n : nat) (s : string) : string :=
  match n, s with
  | O, _ => s
  | S _, EmptyString => EmptyString
  | S n', String _ s' => drop n' s'
  end.

(** [s.startswith(p)]. *)
Definition startswith (p s : string) : bool := String.prefix p s.

(** [sub in s]. *)
Fixpoint contains (sub s : string) : bool :=
  startswith sub s ||
  match s with
  | EmptyString => false
  | String _ s' => contains sub s'
  end.

(** The left-to-right scan of [str.replace] for a non-empty [old]: [skip]
    is the number of characters of the occurrence just replaced that are
    still to be passed over. *)
Fixpoint replace_scan (old new : string) (skip : nat) (s : string) : string :=
  match s with
  | EmptyString => EmptyString
  | String c s' =>
      match skip with
      | S k => replace_scan old new k s'
      | O =>
          if startswith old s
          then new ++ replace_scan old new (String.length old - 1) s'
          else String c (replace_scan old new 0 s')
      end
  end.

(** With an empty [old], [str.replace] puts [new] before every character and
    at the end. *)
Fixpoint intersperse (new s : string) : string :=
  match s with
  | EmptyString => new
  | String c s' => new ++ String c (intersperse new s')
  end.

(** [s.replace(old, new)]: every non-overlapping occurrence, leftmost
    first. *)
Definition replace (s old new : string) : string :=
  match old with
  | EmptyString => intersperse new s
  | String _ _ => replace_scan old new 0 s
  end.

(** The scan of [str.count] for a non-empty [sub]. *)
Fixpoint count_scan (sub : string) (skip : nat) (s : string) : nat :=
  match s with
  | EmptyString => 0
  | String _ s' =>
      match skip with
      | S k => count_scan sub k s'
      | O =>
          if startswith sub s
          then S (count_scan sub (String.length sub - 1) s')
          else count_scan sub 0 s'
      end
  end.

(** [s.count(sub)]: the number of non-overlapping occurrences. *)
Definition count (s sub : string) : nat :=
  match sub with
  | EmptyString => S (String.length s)
  | String _ _ => count_scan sub 0 s
  end.

(** The line boundaries of [str.splitlines] among the 8-bit characters:
    LF, VT, FF, CR, FS, GS, RS and NEL. *)
Definition is_linebreak (c : ascii) : bool :=
  let n := nat_of_ascii c in
  ((n =? 10) || (n =? 11) || (n =? 12) || (n =? 13) ||
   (n =? 28) || (n =? 29) || (n =? 30) || (n =? 133))%nat.

(** [cur] is the line being read; [after_cr] tells that the previous
    character was a CR, so that a following LF belongs to the same
    boundary. *)
Fixpoint splitlines_scan (cur : string) (after_cr : bool) (s : string)
  : list string :=
  match s with
  | EmptyString => if truthy cur then [cur] else []
  | String c s' =>
      if after_cr && (nat_of_ascii c =? 10)%nat then splitlines_scan cur false s'
      else if is_linebreak c
      then cur :: splitlines_scan "" (nat_of_ascii c =? 13)%nat s'
      else splitlines_scan (cur ++ String c "") false s'
  end.

(** [s.splitlines()]. *)
Definition splitlines (s : string) : list string := splitlines_scan "" false s.

(** [str(n)] for a non-negative [int]. *)
Definition str_of_nat (n : nat) : string :=
  NilZero.string_of_uint (Nat.to_uint n).

End PyStr.

(** ** Python lists *)

Module PyList.

(** [l.insert(i, x)]: a negative index counts from the end, and an index
    out of range is clamped to the nearest end. *)
Definition insert {A : Type} (l : list A) (i : Z) (x : A) : list A :=
  let n := Z.of_nat (List.length l) in
  let k := if (i <? 0)%Z then Z.max 0 (i + n) else Z.min i n in
  (firstn (Z.to_nat k) l ++ x :: skipn (Z.to_nat k) l)%list.

(** [l.append(x)]. *)
Definition append {A : Type} (l : list A) (x : A) : list A := (l ++ [x])%list.

(** [l.count(x)] on a list of strings. *)
Definition count (l : list string) (x : string) : nat :=
  count_occ string_dec l x.

End PyList.

Import PyStr.

(** ** TemplateBuilder: [_create_latex_template] *)

(** The [\usepackage] line of one package in the loop over
    [default_packages + packages]. *)
Definition package_line (package : string) : string :=
  if package =? "inputenc" then "\usepackage[utf8]{inputenc}"
  else if package =? "fontenc" then "\usepackage[T1]{fontenc}"
  else if package =? "babel" then "\usepackage[english]{babel}"
  else "\usepackage{" ++ package ++ "}".

Definition default_packages : list string := ["inputenc"; "fontenc"; "babel"].

Definition _create_latex_template
  (document_type title author date content : string)
  (packages : list string) (geometry : string) : string :=
  let template_parts := ["\documentclass{" ++ document_type ++ "}"] in
  let template_parts :=
    if truthy geometry
    then PyList.append template_parts ("\usepackage[" ++ geometry ++ "]{geometry}")
    else template_parts in
  let template_parts :=
    fold_left (fun parts package => PyList.append parts (package_line package))
              (default_packages ++ packages)%list template_parts in
  let template_parts :=
    if truthy title then PyList.append template_parts ("\title{" ++ title ++ "}")
    else template_parts in
  let template_parts :=
    if truthy author then PyList.append template_parts ("\author{" ++ author ++ "}")
    else template_parts in
  let template_parts :=
    if truthy date then PyList.append template_parts ("\date{" ++ date ++ "}")
    else template_parts in
  let template_parts := PyList.append template_parts "\begin{document}" in
  let template_parts :=
    if truthy title then PyList.append template_parts "\maketitle"
    else template_parts in
  let template_parts :=
    if truthy content then PyList.append template_parts content
    else PyList.append template_parts "% Your content here" in
  let template_parts := PyList.append template_parts "\end{document}" in
  join (nl ++ nl) template_parts.

(** ** TextEditor: the edit performed by [_edit_latex_file] *)

(** How a tool call ended.  The tools return plain text; the kind of ending
    is recorded next to the text so that properties can speak of it. *)
Inductive failure : Type :=
  | PathEscape          (* the [ValueError] of [_get_file_path] *)
  | FileNotFound        (* the target file or directory does not exist *)
  | MissingField        (* an edit lacks [search_text] or [line_number] *)
  | UnknownOperation
  | UnknownTool
  | InternalException.  (* any other exception *)

Inductive outcome : Type :=
  | Success
  | Failed (f : failure).

(** The text and the ending of a tool call. *)
Definition reply : Type := (outcome * string)%type.

(** The part of [_edit_latex_file] between reading [content] and writing it
    back: [inl] is an early [return] with its message, [inr] the new
    content. *)
Definition edit_content (operation new_text : string)
  (search_text : option string) (line_number : option Z) (content : string)
  : reply + string :=
  let lines := splitlines content in
  let valid_line :=
    match line_number with
    | None => false
    | Some n => (1 <=? n)%Z && (n <=? Z.of_nat (List.length lines))%Z
    end in
  let n := match line_number with Some n => n | None => 0%Z end in
  if operation =? "replace" then
    if negb (truthy_opt search_text)
    then inl (Failed MissingField,
              "search_text is required for replace operation")
    else inr (replace content (the search_text) new_text)
  else if operation =? "insert_before" then
    if truthy_opt search_text
    then inr (replace content (the search_text)
                (new_text ++ nl ++ the search_text))
    else if valid_line
    then inr (join nl (PyList.insert lines (n - 1) new_text))
    else inl (Failed MissingField,
              "search_text or valid line_number is required")
  else if operation =? "insert_after" then
    if truthy_opt search_text
    then inr (replace content (the search_text)
                (the search_text ++ nl ++ new_text))
    else if valid_line
    then inr (join nl (PyList.insert lines n new_text))
    else inl (Failed MissingField,
              "search_text or valid line_number is required")
  else if operation =? "append" then
    inr (content ++ nl ++ new_text)
  else if operation =? "prepend" then
    inr (new_text ++ nl ++ content)
  else inl (Failed UnknownOperation, "Unknown operation: " ++ operation).

(** ** Regular expressions

    The source uses two shapes of pattern, both anchored on a command name:
    [\\cmd\{([^}]+)\}] and [\\cmd(?:\[[^\]]*\])?\{([^}]+)\}].  Every
    quantifier in them is followed by a character it excludes, so matching
    at a position is deterministic. *)

Module Re.

Record pattern : Type := Pattern {
  command : string;          (* the command name after the backslash *)
  optional_bracket : bool    (* whether [(?:\[[^\]]*\])?] follows it *)
}.

(** A match object: [m.start()] and [m.group(1)]. *)
Record re_match : Type := Match {
  start : nat;
  group1 : string
}.

(** The characters before the first [stop], and what follows that [stop];
    [None] when [stop] does not occur. *)
Fixpoint until (stop : ascii) (s : string) : option (string * string) :=
  match s with
  | EmptyString => None
  | String c s' =>
      if Ascii.eqb c stop then Some (EmptyString, s')
      else match until stop s' with
           | Some (g, rest) => Some (String c g, rest)
           | None => None
           end
  end.

(** [(?:\[[^\]]*\])?] at the head of [s]: what is left to match. *)
Definition skip_bracket (s : string) : option string :=
  match s with
  | String c s' =>
      if Ascii.eqb c "["
      then match until "]" s' with
           | Some (_, rest) => Some rest
           | None => None
           end
      else Some s
  | EmptyString => Some s
  end.

(** [\{([^}]+)\}] at the head of [s]: group 1 and what follows the match. *)
Definition brace_group (s : string) : option (string * string) :=
  match s with
  | String c s' =>
      if Ascii.eqb c "{"
      then match until "}" s' with
           | Some (g, rest) => if truthy g then Some (g, rest) else None
           | None => None
           end
      else None
  | EmptyString => None
  end.

(** [re.match(p, s)]: group 1 and the length of the match. *)
Definition match_at (p : pattern) (s : string) : option (string * nat) :=
  if startswith ("\" ++ command p) s then
    let s1 := drop (String.length ("\" ++ command p)) s in
    match (if optional_bracket p then skip_bracket s1 else Some s1) with
    | Some s2 =>
        match brace_group s2 with
        | Some (g, rest) => Some (g, String.length s - String.length rest)
        | None => None
        end
    | None => None
    end
  else None.

(** The scan of [finditer]: [pos] is the index of the head of [s] in the
    subject, [skip] the number of characters of the last match still to be
    passed over. *)
Fixpoint finditer_scan (p : pattern) (pos skip : nat) (s : string)
  : list re_match :=
  match s with
  | EmptyString => []
  | String _ s' =>
      match skip with
      | S k => finditer_scan p (S pos) k s'
      | O =>
          match match_at p s with
          | Some (g, len) => Match pos g :: finditer_scan p (S pos) (len - 1) s'
          | None => finditer_scan p (S pos) 0 s'
          end
      end
  end.

(** [re.finditer(p, s)]. *)
Definition finditer (p : pattern) (s : string) : list re_match :=
  finditer_scan p 0 0 s.

(** [re.findall(p, s)] for a pattern with one group. *)
Definition findall (p : pattern) (s : string) : list string :=
  map group1 (finditer p s).

(** [re.search(p, s)]. *)
Definition search (p : pattern) (s : string) : option re_match :=
  hd_error (finditer p s).

(** [\\cmd\{([^}]+)\}]. *)
Definition cmd (name : string) : pattern := Pattern name false.

(** [\\cmd(?:\[[^\]]*\])?\{([^}]+)\}]. *)
Definition cmd_opt (name : string) : pattern := Pattern name true.

End Re.

(** ** Validator: the checks of [_validate_latex] *)

(** The loop [for env in begins] over the [\begin] names. *)
Definition check_environments (begins ends issues : list string)
  : list string :=
  fold_left
    (fun issues env =>
       if negb (PyList.count begins env =? PyList.count ends env)%nat
       then PyList.append issues ("Unmatched environment: " ++ env)
       else issues)
    begins issues.

(** [refs - labels] as the list of its elements, before the set orders
    them. *)
Definition undefined_refs (refs labels : list string) : list string :=
  filter (fun r => negb (existsb (String.eqb r) labels)) refs.

(** The [issues] list built by [_validate_latex]; [set_iter] is the order
    in which a [set] of the given elements is iterated. *)
Definition validate_issues (set_iter : list string -> list string)
  (content : string) : list string :=
  let issues := [] in
  let issues :=
    if negb (contains "\documentclass" content)
    then PyList.append issues "Missing \documentclass declaration"
    else issues in
  let issues :=
    if negb (contains "\begin{document}" content)
    then PyList.append issues "Missing \begin{document}"
    else issues in
  let issues :=
    if negb (contains "\end{document}" content)
    then PyList.append issues "Missing \end{document}"
    else issues in
  let open_braces := count content "{" in
  let close_braces := count content "}" in
  let issues :=
    if negb (open_braces =? close_braces)%nat
    then PyList.append issues
           ("Unbalanced braces: " ++ str_of_nat open_braces ++ " opening, "
            ++ str_of_nat close_braces ++ " closing")
    else issues in
  let begins := Re.findall (Re.cmd "begin") content in
  let ends := Re.findall (Re.cmd "end") content in
  let issues := check_environments begins ends issues in
  let refs := Re.findall (Re.cmd "ref") content in
  let labels := Re.findall (Re.cmd "label") content in
  let undefined := set_iter (undefined_refs refs labels) in
  let issues :=
    match undefined with
    | [] => issues
    | _ :: _ =>
        PyList.append issues ("Undefined references: " ++ join ", " undefined)
    end in
  issues.

(** The environment issues alone, as the validator run on [content]
    produces them. *)
Definition environment_issues (content : string) : list string :=
  check_environments (Re.findall (Re.cmd "begin") content)
                     (Re.findall (Re.cmd "end") content) [].

(** ** StructureAnalyzer: the report of [_get_latex_structure] *)

Definition section_patterns : list (Re.pattern * string) :=
  [ (Re.cmd "part", "Part");
    (Re.cmd "chapter", "Chapter");
    (Re.cmd "section", "Section");
    (Re.cmd "subsection", "Subsection");
    (Re.cmd "subsubsection", "Subsubsection");
    (Re.cmd "paragraph", "Paragraph");
    (Re.cmd "subparagraph", "Subparagraph") ].

(** The entries that the two nested loops over [section_patterns] and the
    matches of each pattern append, in the order they are appended. *)
Definition section_entries (content : string) : list (string * Re.re_match) :=
  flat_map
    (fun '(pattern, level) =>
       map (fun m => (level, m)) (Re.finditer pattern content))
    section_patterns.

Definition entry_line (e : string * Re.re_match) : string :=
  "  " ++ fst e ++ ": " ++ Re.group1 (snd e).

(** The [structure] list built by [_get_latex_structure]. *)
Definition structure_lines (set_iter : list string -> list string)
  (content : string) : list string :=
  let structure := [] in
  let structure :=
    match Re.search (Re.cmd_opt "documentclass") content with
    | Some m => PyList.append structure ("Document class: " ++ Re.group1 m)
    | None => structure
    end in
  let structure :=
    match Re.search (Re.cmd "title") content with
    | Some m => PyList.append structure ("Title: " ++ Re.group1 m)
    | None => structure
    end in
  let structure :=
    match Re.search (Re.cmd "author") content with
    | Some m => PyList.append structure ("Author: " ++ Re.group1 m)
    | None => structure
    end in
  let structure := PyList.append structure (nl ++ "Document structure:") in
  let structure :=
    (structure ++ map entry_line (section_entries content))%list in
  let packages := Re.findall (Re.cmd_opt "usepackage") content in
  let structure :=
    match packages with
    | [] => structure
    | _ :: _ =>
        PyList.append structure
          (nl ++ "Packages used: " ++ join ", " (set_iter packages))
    end in
  structure.

(** ** The platform: [pathlib], the file system and the Python runtime

    What the tools call but the repository does not define.  An exception of
    the platform is given by its message [str(e)] and by whether it is a
    [ValueError], which is all the source looks at. *)

Record oserror : Type := OSError {
  is_value_error : bool;
  message : string
}.

Class Platform : Type := {
  Path : Type;                                  (* [pathlib.Path] *)
  FS : Type;                                    (* the file system *)
  path_of : string -> Path;                     (* [Path(s)] *)
  path_str : Path -> string;                    (* [str(p)] *)
  is_absolute : Path -> bool;
  joinpath : Path -> Path -> Path;              (* [p / q] *)
  parent : Path -> Path;
  relative_to : Path -> Path -> string + Path;  (* [inl]: a [ValueError] *)
  sorted_paths : list Path -> list Path;        (* [sorted(paths)] *)
  resolve : FS -> Path -> oserror + Path;
  path_exists : FS -> Path -> bool;
  is_dir : FS -> Path -> bool;
  read_text : FS -> Path -> oserror + string;
  write_text : FS -> Path -> string -> option oserror * FS;
  mkdir_parents : FS -> Path -> option oserror * FS;
  glob : FS -> Path -> string -> oserror + list Path;
  stat_size : FS -> Path -> oserror + nat;
  set_iter : list string -> list string;        (* iteration order of a set *)
  type_error : string -> list string -> string  (* message of a bad call *)
}.

Section Tools.

Context `{P : Platform}.

(** What a tool does to the file system, in the order it does it. *)
Inductive io_event : Type :=
  | IoResolve (p : Path)
  | IoExists (p : Path)
  | IoIsDir (p : Path)
  | IoRead (p : Path)
  | IoWrite (p : Path) (text : string)
  | IoMkdir (p : Path)
  | IoGlob (p : Path) (pattern : string)
  | IoStat (p : Path).

Record world : Type := World {
  fs : FS;
  trace : list io_event
}.

(** A raised exception: its message, whether [except ValueError] catches it,
    and the kind of failure it stands for. *)
Record exn : Type := Exn {
  exn_flavour : failure;
  exn_value_error : bool;
  exn_msg : string
}.

(** Computations that read and change the world and may raise. *)
Definition M (A : Type) : Type := world -> (exn + A) * world.

Definition ret {A : Type} (a : A) : M A := fun w => (inr a, w).

Definition bind {A B : Type} (m : M A) (k : A -> M B) : M B :=
  fun w =>
    match m w with
    | (inl e, w') => (inl e, w')
    | (inr a, w') => k a w'
    end.

Definition raise {A : Type} (e : exn) : M A := fun w => (inl e, w).

(** [try: m  except Exception as e: h e]. *)
Definition try_except {A : Type} (m : M A) (h : exn -> M A) : M A :=
  fun w =>
    match m w with
    | (inl e, w') => h e w'
    | (inr a, w') => (inr a, w')
    end.

(** [try: m  except ValueError: h]. *)
Definition try_except_value_error {A : Type} (m : M A) (h : M A) : M A :=
  try_except m (fun e => if exn_value_error e then h else raise e).

Definition of_oserror (e : oserror) : exn :=
  Exn InternalException (is_value_error e) (message e).

(** An operation that consults the file system. *)
Definition io_query {A : Type} (ev : io_event) (f : FS -> oserror + A) : M A :=
  fun w =>
    let w' := World (fs w) (trace w ++ [ev]) in
    match f (fs w) with
    | inl e => (inl (of_oserror e), w')
    | inr a => (inr a, w')
    end.

(** An operation that changes the file system. *)
Definition io_update (ev : io_event) (f : FS -> option oserror * FS)
  : M unit :=
  fun w =>
    let '(r, fs') := f (fs w) in
    let w' := World fs' (trace w ++ [ev]) in
    match r with
    | Some e => (inl (of_oserror e), w')
    | None => (inr tt, w')
    end.

(** A pure path operation that may raise a [ValueError]. *)
Definition value_or_raise {A : Type} (r : string + A) : M A :=
  match r with
  | inl m => raise (Exn InternalException true m)
  | inr a => ret a
  end.

End Tools.

Declare Scope py_scope.
Delimit Scope py_scope with py.
Notation "x <- m ;; k" := (bind m (fun x => k))
  (at level 61, m at next level, right associativity) : py_scope.
Notation "m ;;; k" := (bind m (fun _ => k))
  (at level 61, right associativity) : py_scope.

Section Server.

Context `{P : Platform}.

Local Open Scope py_scope.

Definition io_resolve (p : Path) : M Path :=
  io_query (IoResolve p) (fun s => resolve s p).
Definition io_exists (p : Path) : M bool :=
  io_query (IoExists p) (fun s => inr (path_exists s p)).
Definition io_is_dir (p : Path) : M bool :=
  io_query (IoIsDir p) (fun s => inr (is_dir s p)).
Definition io_read_text (p : Path) : M string :=
  io_query (IoRead p) (fun s => read_text s p).
Definition io_write_text (p : Path) (text : string) : M unit :=
  io_update (IoWrite p text) (fun s => write_text s p text).
Definition io_mkdir (p : Path) : M unit :=
  io_update (IoMkdir p) (fun s => mkdir_parents s p).
Definition io_glob (p : Path) (pattern : string) : M (list Path) :=
  io_query (IoGlob p pattern) (fun s => glob s p pattern).
Definition io_stat (p : Path) : M nat :=
  io_query (IoStat p) (fun s => stat_size s p).

(** The server object: [self.base_path] is resolved once, at start. *)
Record LaTeXServer : Type := Server {
  base_path : Path
}.

Definition _get_file_path (self : LaTeXServer) (file_path : string) : M Path :=
  let path := path_of file_path in
  let path :=
    if negb (is_absolute path) then joinpath (base_path self) path
    else path in
  allowed_base <- io_resolve (parent (base_path self)) ;;
  try_except_value_error
    (resolved <- io_resolve path ;;
     value_or_raise (relative_to resolved allowed_base) ;;;
     ret tt)
    (raise (Exn PathEscape true
              ("Path " ++ file_path ++ " is outside the allowed base path ("
               ++ path_str allowed_base ++ ")"))) ;;;
  ret path.

Definition _create_latex_file (self : LaTeXServer) (file_path : string)
  (document_type title author date content : string)
  (packages : option (list string)) (geometry : string) : M reply :=
  let packages := match packages with None => [] | Some l => l end in
  try_except
    (path <- _get_file_path self file_path ;;
     io_mkdir (parent path) ;;;
     let latex_content :=
       _create_latex_template document_type title author date content
         packages geometry in
     io_write_text path latex_content ;;;
     ret (Success,
          "Successfully created LaTeX file: " ++ path_str path ++ nl ++ nl
          ++ "Content:" ++ nl ++ latex_content))
    (fun e =>
       ret (Failed (exn_flavour e),
            "Error creating LaTeX file: " ++ exn_msg e)).

Definition _edit_latex_file (self : LaTeXServer) (file_path : string)
  (operation new_text : string) (search_text : option string)
  (line_number : option Z) : M reply :=
  try_except
    (path <- _get_file_path self file_path ;;
     found <- io_exists path ;;
     if negb found
     then ret (Failed FileNotFound, "File not found: " ++ path_str path)
     else
       content <- io_read_text path ;;
       match edit_content operation new_text search_text line_number content
       with
       | inl early => ret early
       | inr content =>
           io_write_text path content ;;;
           ret (Success,
                "Successfully edited LaTeX file: " ++ path_str path ++ nl ++ nl
                ++ "Operation: " ++ operation ++ nl ++ "File updated.")
       end)
    (fun e =>
       ret (Failed (exn_flavour e),
            "Error editing LaTeX file: " ++ exn_msg e)).

Definition _read_latex_file (self : LaTeXServer) (file_path : string)
  : M reply :=
  try_except
    (path <- _get_file_path self file_path ;;
     found <- io_exists path ;;
     if negb found
     then ret (Failed FileNotFound, "File not found: " ++ path_str path)
     else
       content <- io_read_text path ;;
       ret (Success,
            "Contents of " ++ path_str path ++ ":" ++ nl ++ nl ++ content))
    (fun e =>
       ret (Failed (exn_flavour e),
            "Error reading LaTeX file: " ++ exn_msg e)).

(** The loop [for tex_file in sorted(tex_files)]. *)
Fixpoint list_entries (self : LaTeXServer) (tex_files : list Path)
  (file_list : list string) : M (list string) :=
  match tex_files with
  | [] => ret file_list
  | tex_file :: rest =>
      relative_path <- value_or_raise (relative_to tex_file (base_path self)) ;;
      size <- io_stat tex_file ;;
      list_entries self rest
        (PyList.append file_list
           ("  " ++ path_str relative_path ++ " (" ++ str_of_nat size
            ++ " bytes)"))
  end.

Definition _list_latex_files (self : LaTeXServer) (directory_path : string)
  (recursive : bool) : M reply :=
  try_except
    (dir_path <- _get_file_path self directory_path ;;
     found <- io_exists dir_path ;;
     isdir <- (if found then io_is_dir dir_path else ret false) ;;
     if negb found || negb isdir
     then ret (Failed FileNotFound,
               "Directory not found: " ++ path_str dir_path)
     else
       let pattern := if recursive then "**/*.tex" else "*.tex" in
       tex_files <- io_glob dir_path pattern ;;
       match tex_files with
       | [] => ret (Success,
                    "No LaTeX files found in " ++ path_str dir_path)
       | _ :: _ =>
           file_list <- list_entries self (sorted_paths tex_files) [] ;;
           ret (Success,
                "LaTeX files in " ++ path_str dir_path ++ ":" ++ nl ++ nl
                ++ join nl file_list)
       end)
    (fun e =>
       ret (Failed (exn_flavour e),
            "Error listing LaTeX files: " ++ exn_msg e)).

Definition _validate_latex (self : LaTeXServer) (file_path : string)
  : M reply :=
  try_except
    (path <- _get_file_path self file_path ;;
     found <- io_exists path ;;
     if negb found
     then ret (Failed FileNotFound, "File not found: " ++ path_str path)
     else
       content <- io_read_text path ;;
       match validate_issues set_iter content with
       | [] =>
           ret (Success,
                "LaTeX file " ++ path_str path
                ++ " appears to be valid (basic checks passed)")
       | issues =>
           ret (Success,
                "LaTeX validation issues found in " ++ path_str path ++ ":"
                ++ nl ++ nl
                ++ join nl (map (fun issue => "- " ++ issue) issues))
       end)
    (fun e =>
       ret (Failed (exn_flavour e),
            "Error validating LaTeX file: " ++ exn_msg e)).

Definition _get_latex_structure (self : LaTeXServer) (file_path : string)
  : M reply :=
  try_except
    (path <- _get_file_path self file_path ;;
     found <- io_exists path ;;
     if negb found
     then ret (Failed FileNotFound, "File not found: " ++ path_str path)
     else
       content <- io_read_text path ;;
       let structure := structure_lines set_iter content in
       ret (Success,
            "Structure of " ++ path_str path ++ ":" ++ nl ++ nl
            ++ join nl structure))
    (fun e =>
       ret (Failed (exn_flavour e),
            "Error analyzing LaTeX structure: " ++ exn_msg e)).

End Server.

(** ** Dispatch: [call_tool]

    The [arguments] mapping, with each value of the type the tool schemas
    declare for its key; [arg_other] lists the keys no schema declares. *)

Record arguments : Type := Arguments {
  arg_file_path : option string;
  arg_document_type : option string;
  arg_title : option string;
  arg_author : option string;
  arg_date : option string;
  arg_content : option string;
  arg_packages : option (list string);
  arg_geometry : option string;
  arg_operation : option string;
  arg_new_text : option string;
  arg_search_text : option string;
  arg_line_number : option Z;
  arg_directory_path : option string;
  arg_recursive : option bool;
  arg_other : list string
}.

Definition present {A : Type} (key : string) (v : option A) : list string :=
  match v with
  | Some _ => [key]
  | None => []
  end.

(** [arguments.keys()]. *)
Definition keys (a : arguments) : list string :=
  (present "file_path" (arg_file_path a)
   ++ present "document_type" (arg_document_type a)
   ++ present "title" (arg_title a)
   ++ present "author" (arg_author a)
   ++ present "date" (arg_date a)
   ++ present "content" (arg_content a)
   ++ present "packages" (arg_packages a)
   ++ present "geometry" (arg_geometry a)
   ++ present "operation" (arg_operation a)
   ++ present "new_text" (arg_new_text a)
   ++ present "search_text" (arg_search_text a)
   ++ present "line_number" (arg_line_number a)
   ++ present "directory_path" (arg_directory_path a)
   ++ present "recursive" (arg_recursive a)
   ++ arg_other a)%list.

Definition mem (k : string) (l : list string) : bool :=
  existsb (String.eqb k) l.

(** Whether a call that passes the mapping as keyword arguments binds:
    every key is a parameter and every parameter without a default is
    given. *)
Definition binds (params required : list string) (a : arguments) : bool :=
  forallb (fun k => mem k params) (keys a)
  && forallb (fun k => mem k (keys a)) required.

(** The value of a parameter: the argument, or the declared default. *)
Definition default {A : Type} (d : A) (v : option A) : A :=
  match v with
  | Some x => x
  | None => d
  end.

Section Dispatch.

Context `{P : Platform}.

(** The [TypeError] of a call that does not bind. *)
Definition bad_call (method : string) (a : arguments) : M reply :=
  raise (Exn InternalException false (type_error method (keys a))).

Definition call_tool (self : LaTeXServer) (name : string) (a : arguments)
  : M reply :=
  try_except
    (if name =? "create_latex_file" then
       if binds ["file_path"; "document_type"; "title"; "author"; "date";
                 "content"; "packages"; "geometry"] ["file_path"] a
       then _create_latex_file self (the (arg_file_path a))
              (default "article" (arg_document_type a))
              (default "" (arg_title a))
              (default "" (arg_author a))
              (default "\today" (arg_date a))
              (default "" (arg_content a))
              (arg_packages a)
              (default "" (arg_geometry a))
       else bad_call "_create_latex_file" a
     else if name =? "edit_latex_file" then
       if binds ["file_path"; "operation"; "new_text"; "search_text";
                 "line_number"] ["file_path"; "operation"; "new_text"] a
       then _edit_latex_file self (the (arg_file_path a))
              (the (arg_operation a)) (the (arg_new_text a))
              (arg_search_text a) (arg_line_number a)
       else bad_call "_edit_latex_file" a
     else if name =? "read_latex_file" then
       if binds ["file_path"] ["file_path"] a
       then _read_latex_file self (the (arg_file_path a))
       else bad_call "_read_latex_file" a
     else if name =? "list_latex_files" then
       if binds ["directory_path"; "recursive"] [] a
       then _list_latex_files self (default "." (arg_directory_path a))
              (default false (arg_recursive a))
       else bad_call "_list_latex_files" a
     else if name =? "validate_latex" then
       if binds ["file_path"] ["file_path"] a
       then _validate_latex self (the (arg_file_path a))
       else bad_call "_validate_latex" a
     else if name =? "get_latex_structure" then
       if binds ["file_path"] ["file_path"] a
       then _get_latex_structure self (the (arg_file_path a))
       else bad_call "_get_latex_structure" a
     else ret (Failed UnknownTool, "Unknown tool: " ++ name))
    (fun e => ret (Failed (exn_flavour e), "Error: " ++ exn_msg e)).

End Dispatch.

(** The prefixes with which the texts of failed calls begin. *)
Definition failure_prefixes : list string :=
  [ "Error: ";
    "Error creating LaTeX file: ";
    "Error editing LaTeX file: ";
    "Error reading LaTeX file: ";
    "Error listing LaTeX files: ";
    "Error validating LaTeX file: ";
    "Error analyzing LaTeX structure: ";
    "File not found: ";
    "Directory not found: ";
    "search_text is required for replace operation";
    "search_text or valid line_number is required";
    "Unknown operation: ";
    "Unknown tool: " ].

Definition has_failure_prefix (text : string) : bool :=
  existsb (fun p => startswith p text) failure_prefixes.

(** ** Resources: [list_resources] and [read_resource]

    The two resource handlers use [Path.is_file] and [Path.suffix] besides
    the operations of [Platform]; they are taken as parameters.
    [Path.is_file] stats the path and is recorded as [IoStat].

    [Resource] is a class of the [mcp] library, not of this repository: its
    constructor validates its arguments, turns the [uri] text into a URL
    value of its own, and raises when the validation fails.  The type and
    the constructor are parameters: [make_Resource uri name description
    mimeType] is [None] when the constructor raises. *)

Section Resources.

Context `{P : Platform}.

Variable is_file : FS -> Path -> bool.
Variable suffix : Path -> string.

Context {Resource : Type}.
Variable make_Resource : string -> string -> string -> string
                         -> option Resource.

Local Open Scope py_scope.

Definition io_is_file (p : Path) : M bool :=
  io_query (IoStat p) (fun s => inr (is_file s p)).

(** The loop of [list_resources] over the files found.  The [resources]
    list is built in place, so an exception inside the loop, of
    [relative_to] or of the constructor of [Resource], leaves the resources
    collected before it: the handler logs it and the list is returned as it
    is. *)
Fixpoint resources_loop (self : LaTeXServer) (tex_files : list Path)
  (resources : list Resource) : M (list Resource) :=
  match tex_files with
  | [] => ret resources
  | tex_file :: rest =>
      isfile <- io_is_file tex_file ;;
      if isfile then
        match relative_to tex_file (base_path self) with
        | inl _ => ret resources
        | inr relative_path =>
            match make_Resource ("file://" ++ path_str tex_file)
                    (path_str relative_path)
                    ("LaTeX file: " ++ path_str relative_path)
                    "text/x-tex" with
            | None => ret resources
            | Some resource =>
                resources_loop self rest (PyList.append resources resource)
            end
        end
      else resources_loop self rest resources
  end.

(** [self.base_path.rglob("*.tex")] is [glob] with ["**/"] put before the
    pattern. *)
Definition list_resources (self : LaTeXServer) : M (list Resource) :=
  try_except
    (tex_files <- io_glob (base_path self) "**/*.tex" ;;
     resources_loop self tex_files [])
    (fun _ => ret []).

(** The handler of [read_resource] logs the exception and raises it
    again. *)
Definition read_resource (uri : string) : M string :=
  try_except
    (if startswith "file://" uri then
       let file_path := path_of (drop 7 uri) in
       found <- (if suffix file_path =? ".tex" then io_exists file_path
                 else ret false) ;;
       if (suffix file_path =? ".tex") && found
       then io_read_text file_path
       else raise (Exn FileNotFound true
                     ("File not found or not a LaTeX file: "
                      ++ path_str file_path))
     else raise (Exn InternalException true
                   ("Unsupported URI scheme: " ++ uri)))
    (fun e => raise e).

End Resources.

(** ** An in-memory platform

    POSIX-like paths without symbolic links and a file system held in an
    association list, on which the tools can be run. *)

Module Sim.

Record path : Type := MkPath {
  absolute : bool;
  parts : list string
}.

Inductive node : Type :=
  | File (text : string)
  | Dir.

(** Files and directories by the text of their resolved path. *)
Definition filesystem : Type := list (string * node).

Fixpoint split_slash (cur s : string) : list string :=
  match s with
  | EmptyString => [cur]
  | String c s' =>
      if Ascii.eqb c "/" then cur :: split_slash "" s'
      else split_slash (cur ++ String c "") s'
  end.

Definition of_string (s : string) : path :=
  MkPath (startswith "/" s)
         (filter (fun c => negb (c =? "") && negb (c =? "."))
                 (split_slash "" s)).

Definition to_string (p : path) : string :=
  if absolute p then "/" ++ join "/" (parts p)
  else match parts p with
       | [] => "."
       | l => join "/" l
       end.

Definition join_paths (p q : path) : path :=
  if absolute q then q else MkPath (absolute p) (parts p ++ parts q)%list.

Definition parent_of (p : path) : path :=
  MkPath (absolute p) (removelast (parts p)).

Fixpoint strip (pre l : list string) : option (list string) :=
  match pre, l with
  | [], _ => Some l
  | x :: pre', y :: l' => if x =? y then strip pre' l' else None
  | _ :: _, [] => None
  end.

Definition relative (p q : path) : string + path :=
  match (if Bool.eqb (absolute p) (absolute q)
         then strip (parts q) (parts p) else None) with
  | Some r => inr (MkPath false r)
  | None =>
      inl ("'" ++ to_string p ++ "' is not in the subpath of '"
           ++ to_string q ++ "'")
  end.

(** Removes the [..] components; the working directory is the root. *)
Fixpoint normalise (stack l : list string) : list string :=
  match l with
  | [] => rev stack
  | c :: l' =>
      if c =? ".." then normalise (tl stack) l' else normalise (c :: stack) l'
  end.

Definition canonical (p : path) : path := MkPath true (normalise [] (parts p)).

Definition key (p : path) : string := to_string (canonical p).

Fixpoint lookup (s : filesystem) (k : string) : option node :=
  match s with
  | [] => None
  | (k', n) :: s' => if k =? k' then Some n else lookup s' k
  end.

Definition remove (s : filesystem) (k : string) : filesystem :=
  filter (fun e => negb (k =? fst e)) s.

Definition exists_at (s : filesystem) (p : path) : bool :=
  match parts (canonical p), lookup s (key p) with
  | [], _ => true
  | _, Some _ => true
  | _, None => false
  end.

Definition dir_at (s : filesystem) (p : path) : bool :=
  match parts (canonical p), lookup s (key p) with
  | [], _ => true
  | _, Some Dir => true
  | _, _ => false
  end.

Definition read (s : filesystem) (p : path) : oserror + string :=
  match lookup s (key p) with
  | Some (File text) => inr text
  | Some Dir => inl (OSError false ("Is a directory: " ++ to_string p))
  | None => inl (OSError false ("No such file or directory: " ++ to_string p))
  end.

Definition write (s : filesystem) (p : path) (text : string)
  : option oserror * filesystem :=
  match lookup s (key p) with
  | Some Dir => (Some (OSError false ("Is a directory: " ++ to_string p)), s)
  | _ => (None, (key p, File text) :: remove s (key p))
  end.

Definition mkdir (s : filesystem) (p : path) : option oserror * filesystem :=
  match lookup s (key p) with
  | Some (File _) => (Some (OSError false ("File exists: " ++ to_string p)), s)
  | Some Dir => (None, s)
  | None => (None, (key p, Dir) :: s)
  end.

Definition endswith (suffix s : string) : bool :=
  drop (String.length s - String.length suffix) s =? suffix.

(** The [.tex] files below [p]: its children for ["*.tex"], all its
    descendants for ["**/*.tex"]. *)
Definition tex_below (s : filesystem) (p : path) (pattern : string)
  : oserror + list path :=
  let dir := key p ++ "/" in
  inr (map (fun e => of_string (fst e))
         (filter
            (fun e =>
               match snd e with
               | File _ =>
                   startswith dir (fst e) && endswith ".tex" (fst e)
                   && ((pattern =? "**/*.tex")
                       || negb (contains "/"
                                  (drop (String.length dir) (fst e))))
               | Dir => false
               end) s)).

Definition size (s : filesystem) (p : path) : oserror + nat :=
  match lookup s (key p) with
  | Some (File text) => inr (String.length text)
  | Some Dir => inr 0
  | None => inl (OSError false ("No such file or directory: " ++ to_string p))
  end.

Fixpoint insert_sorted (p : path) (l : list path) : list path :=
  match l with
  | [] => [p]
  | q :: l' =>
      if String.leb (to_string p) (to_string q) then p :: l
      else q :: insert_sorted p l'
  end.

Definition sort (l : list path) : list path := fold_right insert_sorted [] l.

Definition platform : Platform := {|
  Path := path;
  FS := filesystem;
  path_of := of_string;
  path_str := to_string;
  is_absolute := absolute;
  joinpath := join_paths;
  parent := parent_of;
  relative_to := relative;
  sorted_paths := sort;
  resolve := fun _ p => inr (canonical p);
  path_exists := exists_at;
  is_dir := dir_at;
  read_text := read;
  write_text := write;
  mkdir_parents := mkdir;
  glob := tex_below;
  stat_size := size;
  set_iter := nodup string_dec;
  type_error := fun method ks =>
    method ++ "() got unexpected or missing arguments: " ++ join ", " ks
|}.

(** A server started on [/srv/docs/tex], and a file system with one
    document in it. *)
Definition server : @LaTeXServer platform :=
  @Server platform (of_string "/srv/docs/tex").

Definition disk : filesystem :=
  [ ("/srv", Dir); ("/srv/docs", Dir); ("/srv/docs/tex", Dir);
    ("/srv/docs/tex/paper.tex",
     File ("\documentclass{article}" ++ nl ++ "\begin{document}" ++ nl
           ++ "Hello" ++ nl ++ "\end{document}")) ].

Definition boot : @world platform := @World platform disk [].

(** A mapping with no key. *)
Definition no_arguments : arguments :=
  Arguments None None None None None None None None None None None None None
            None [].

(** The text of the reply of a run. *)
Definition text_of (r : (exn + reply) * @world platform) : string :=
  match fst r with
  | inr (_, text) => text
  | inl _ => ""
  end.

(** Some runs of the tools. *)
Definition read_run (file_path : string) :=
  @_read_latex_file platform server file_path boot.

Definition create_run (file_path : string) (w : @world platform) :=
  @_create_latex_file platform server file_path "article" "Test" ""
    "\today" "" (Some ["amsmath"]) "" w.

Definition edit_absent_run :=
  @_edit_latex_file platform server "absent.tex" "append" "x" None None boot.

End Sim.

(** [Path.is_file] and [Path.suffix] on the in-memory platform. *)

Module SimFiles.

Definition is_file (s : Sim.filesystem) (p : Sim.path) : bool :=
  match Sim.lookup s (Sim.key p) with
  | Some (Sim.File _) => true
  | _ => false
  end.

(** Only the suffix that the server looks for is told apart. *)
Definition suffix (p : Sim.path) : string :=
  if Sim.endswith ".tex" (last (Sim.parts p) "") then ".tex" else "".

Definition read_run (uri : string) :=
  @read_resource Sim.platform suffix uri Sim.boot.

(** A stand-in for the class of the library: it keeps its four arguments as
    they are given, and refuses an [uri] that [accepts] refuses. *)
Record resource : Type := MkResource {
  uri : string;
  name : string;
  description : string;
  mimeType : string
}.

Definition make_resource (accepts : string -> bool)
  (uri name description mimeType : string) : option resource :=
  if accepts uri then Some (MkResource uri name description mimeType)
  else None.

Definition list_run (accepts : string -> bool) :=
  @list_resources Sim.platform is_file resource (make_resource accepts)
    Sim.server Sim.boot.

(** A file system with a document outside the allowed root [/srv/docs]. *)
Definition elsewhere : @world Sim.platform :=
  @World Sim.platform
    (("/home/ann/notes.tex", Sim.File "private notes") :: Sim.disk) [].

Definition edit_run :=
  @_edit_latex_file Sim.platform Sim.server "paper.tex" "append" "% end" None
    None Sim.boot.

End SimFiles.

(** ** Specification vocabulary *)

(** The strings [ps] occur in [s] one after the other, without overlap. *)
Fixpoint in_order (ps : list string) (s : string) : Prop :=
  match ps with
  | [] => True
  | p :: ps' => exists a b, s = a ++ p ++ b /\ in_order ps' b
  end.

(** What is left of [s] after the leftmost occurrence of [p]. *)
Fixpoint after_first (p s : string) : option string :=
  if startswith p s then Some (drop (String.length p) s)
  else match s with
       | EmptyString => None
       | String _ s' => after_first p s'
       end.

(** The decision procedure for [in_order]: take each string at its leftmost
    occurrence after the previous one. *)
Fixpoint in_orderb (ps : list string) (s : string) : bool :=
  match ps with
  | [] => true
  | p :: ps' =>
      match after_first p s with
      | Some rest => in_orderb ps' rest
      | None => false
      end
  end.

(** The pieces of [s] between the occurrences of a non-empty [sep] that
    [str.replace] and [str.count] find, as [s.split(sep)] returns them. *)
Fixpoint split_scan (sep : string) (skip : nat) (s : string) : list string :=
  match s with
  | EmptyString => [EmptyString]
  | String c s' =>
      match skip with
      | S k => split_scan sep k s'
      | O =>
          if startswith sep s
          then EmptyString :: split_scan sep (String.length sep - 1) s'
          else match split_scan sep 0 s' with
               | piece :: pieces => String c piece :: pieces
               | [] => [String c EmptyString]
               end
      end
  end.

Definition split (s sep : string) : list string := split_scan sep 0 s.

(** The literal [p] taken off the head of [s]. *)
Fixpoint strip_literal (p s : string) : option string :=
  match p, s with
  | EmptyString, _ => Some s
  | String x p', String y s' =>
      if Ascii.eqb x y then strip_literal p' s' else None
  | String _ _, EmptyString => None
  end.

(** The strings of the article scenario, in the order [\title],
    [\maketitle], [\begin{document}]. *)
Definition scenario_title_first : list string :=
  [ "\documentclass{article}"; "\usepackage[utf8]{inputenc}";
    "\usepackage{amsmath}"; "\title{Test}"; "\maketitle";
    "\begin{document}"; "\end{document}" ].

(** The same strings in the order the template emits them. *)
Definition scenario_emitted : list string :=
  [ "\documentclass{article}"; "\usepackage[utf8]{inputenc}";
    "\usepackage{amsmath}"; "\title{Test}"; "\begin{document}";
    "\maketitle"; "\end{document}" ].

(** One edit after another on a text, stopping at the first that fails. *)
Definition and_then (r : reply + string) (f : string -> reply + string)
  : reply + string :=
  match r with
  | inl early => inl early
  | inr content => f content
  end.

(** The condition on [line_number] in the two insert operations. *)
Definition valid_line (line_number : option Z) (content : string) : bool :=
  match line_number with
  | None => false
  | Some n => (1 <=? n)%Z && (n <=? Z.of_nat (List.length (splitlines content)))%Z
  end.

(** The issues that the loop of [check_environments] adds while it goes
    through [todo]. *)
Definition unmatched_reports (begins ends todo : list string) : list string :=
  flat_map
    (fun env =>
       if negb (PyList.count begins env =? PyList.count ends env)%nat
       then ["Unmatched environment: " ++ env] else [])
    todo.

(** Events that change the file system. *)
Definition is_write `{P : Platform} (ev : io_event) : bool :=
  match ev with
  | IoWrite _ _ | IoMkdir _ => true
  | _ => false
  end.

(** From [w] to [w'] nothing was written: the file system is the same and
    the events added to the trace only consult it. *)
Definition quiet `{P : Platform} (w w' : world) : Prop :=
  fs w' = fs w
  /\ exists delta, trace w' = (trace w ++ delta)%list
                   /\ Forall (fun ev => is_write ev = false) delta.

(** The text of a reply tells its ending: it begins with a failure prefix
    exactly when the call failed. *)
Definition consistent (r : reply) : Prop :=
  has_failure_prefix (snd r)
  = match fst r with
    | Success => false
    | Failed _ => true
    end.

(** The texts written to files, in order. *)
Definition written `{P : Platform} (evs : list io_event) : list string :=
  flat_map (fun ev => match ev with IoWrite _ text => [text] | _ => [] end)
           evs.

(** The path that [_get_file_path] checks and returns. *)
Definition locate `{P : Platform} (self : LaTeXServer) (file_path : string)
  : Path :=
  if negb (is_absolute (path_of file_path))
  then joinpath (base_path self) (path_of file_path)
  else path_of file_path.

(** The world after the two resolutions of [_get_file_path]. *)
Definition after_resolutions `{P : Platform} (self : LaTeXServer)
  (file_path : string) (w : world) : world :=
  World (fs w)
        (trace w ++ [IoResolve (parent (base_path self));
                     IoResolve (locate self file_path)]).

(** Every value that [m] returns satisfies [Q]. *)
Definition yields `{P : Platform} {A : Type} (m : M A) (Q : A -> Prop)
  : Prop :=
  forall w a w', m w = (inr a, w') -> Q a.

(** [m] always returns a reply, never raises, and the text of the reply
    tells its ending. *)
Definition total_consistent `{P : Platform} (m : M reply) : Prop :=
  forall w, exists r w', m w = (inr r, w') /\ consistent r.

(** The message of the error raised for a path outside the allowed root. *)
Definition escape_message `{P : Platform} (file_path : string)
  (allowed_base : Path) : string :=
  "Path " ++ file_path ++ " is outside the allowed base path ("
  ++ path_str allowed_base ++ ")".



(** The parts of the template, written as one list: what the statements of
    [_create_latex_template] append one after the other. *)
Definition optional_part (present : bool) (part : string) : list string :=
  if present then [part] else [].

Definition template_parts
  (document_type title author date content : string)
  (packages : list string) (geometry : string) : list string :=
  let class_line := "\documentclass{" ++ document_type ++ "}" in
  let geometry_line := "\usepackage[" ++ geometry ++ "]{geometry}" in
  let title_line := "\title{" ++ title ++ "}" in
  let author_line := "\author{" ++ author ++ "}" in
  let date_line := "\date{" ++ date ++ "}" in
  let body := if truthy content then content else "% Your content here" in
  List.app [class_line]
   (List.app (optional_part (truthy geometry) geometry_line)
   (List.app (map package_line (List.app default_packages packages))
   (List.app (optional_part (truthy title) title_line)
   (List.app (optional_part (truthy author) author_line)
   (List.app (optional_part (truthy date) date_line)
   (List.app ["\begin{document}"]
   (List.app (optional_part (truthy title) "\maketitle")
   [body; "\end{document}"]))))))).

(** The sum of the lengths of the strings of a list. *)
Definition total_length (l : list string) : nat :=
  fold_right (fun p n => String.length p + n) 0 l.

(** The events of a trace that are not path resolutions. *)
Definition is_resolve `{P : Platform} (ev : io_event) : bool :=
  match ev with
  | IoResolve _ => true
  | _ => false
  end.

(** A computation that never writes, whatever the world it starts in. *)
Definition never_writes `{P : Platform} {A : Type} (m : M A) : Prop :=
  forall w, quiet w (snd (m w)).

(** The names of the six tools. *)
Definition tool_names : list string :=
  [ "create_latex_file"; "edit_latex_file"; "read_latex_file";
    "list_latex_files"; "validate_latex"; "get_latex_structure" ].

(** The parameters of the method behind each tool, and those among them
    that have no default, as the [def] lines of the methods give them. *)
Definition tool_parameters (tool : string) : list string :=
  if tool =? "create_latex_file" then
    ["file_path"; "document_type"; "title"; "author"; "date"; "content";
     "packages"; "geometry"]
  else if tool =? "edit_latex_file" then
    ["file_path"; "operation"; "new_text"; "search_text"; "line_number"]
  else if tool =? "list_latex_files" then ["directory_path"; "recursive"]
  else ["file_path"].

Definition tool_required (tool : string) : list string :=
  if tool =? "edit_latex_file" then ["file_path"; "operation"; "new_text"]
  else if tool =? "list_latex_files" then []
  else ["file_path"].

(** A captured name is not empty and holds no closing brace. *)
Definition brace_free_name (g : string) : Prop :=
  g <> "" /\ contains "}" g = false.









(** * Properties *)

Arguments PyStr.startswith : simpl never.

(** Splits a goal into its conjuncts, without unfolding definitions. *)
Ltac conjuncts := repeat match goal with |- _ /\ _ => split end.

(** ** Strings *)

Section StringFacts.

Lemma append_assoc (a b c : string) : (a ++ b) ++ c = a ++ (b ++ c).
Proof. induction a as [|x a IH]; simpl; [reflexivity | now rewrite IH]. Qed.

Lemma append_nil_r (a : string) : a ++ "" = a.
Proof. induction a as [|x a IH]; simpl; [reflexivity | now rewrite IH]. Qed.

Lemma length_append (a b : string) :
  String.length (a ++ b) = String.length a + String.length b.
Proof. induction a as [|x a IH]; simpl; [reflexivity | now rewrite IH]. Qed.

Lemma startswith_nil (s : string) : startswith "" s = true.
Proof. destruct s; reflexivity. Qed.

Lemma startswith_cons (x y : ascii) (p s : string) :
  startswith (String x p) (String y s) = Ascii.eqb x y && startswith p s.
Proof.
  unfold startswith; simpl.
  destruct (ascii_dec x y) as [->|Hne].
  - now rewrite Ascii.eqb_refl.
  - apply Ascii.eqb_neq in Hne. now rewrite Hne.
Qed.

Lemma startswith_app (p s : string) : startswith p (p ++ s) = true.
Proof.
  induction p as [|x p IH]; simpl.
  - apply startswith_nil.
  - rewrite startswith_cons, Ascii.eqb_refl. exact IH.
Qed.

Lemma startswith_split (p s : string) :
  startswith p s = true -> s = p ++ drop (String.length p) s.
Proof.
  revert s. induction p as [|x p IH]; intros s H; simpl.
  - reflexivity.
  - destruct s as [|y s]; [discriminate H|].
    rewrite startswith_cons in H. apply andb_prop in H as [Hxy Hp].
    apply Ascii.eqb_eq in Hxy. subst y. f_equal. now apply IH.
Qed.

Lemma startswith_weaken (p a b : string) :
  startswith p a = true -> startswith p (a ++ b) = true.
Proof.
  intros H. rewrite (startswith_split _ _ H), append_assoc.
  apply startswith_app.
Qed.

Lemma drop_app (p s : string) : drop (String.length p) (p ++ s) = s.
Proof. induction p as [|x p IH]; simpl; [now destruct s | exact IH]. Qed.

Lemma drop_nil (n : nat) : drop n "" = "".
Proof. destruct n; reflexivity. Qed.

Lemma drop_app_le (n : nat) (a b : string) :
  n <= String.length a -> drop n (a ++ b) = drop n a ++ b.
Proof.
  revert a. induction n as [|n IH]; intros a Hle; simpl.
  - reflexivity.
  - destruct a as [|x a]; simpl in *; [lia|]. apply IH. lia.
Qed.

End StringFacts.

(** ** Occurrence in order *)

Section InOrder.

Lemma in_order_app_l (ps : list string) (a s : string) :
  in_order ps s -> in_order ps (a ++ s).
Proof.
  destruct ps as [|p ps]; simpl; [trivial|].
  intros (a' & b & -> & H). exists (a ++ a'), b.
  split; [now rewrite append_assoc | exact H].
Qed.

Lemma in_order_skip_char (ps : list string) (c : ascii) (s : string) :
  in_order ps s -> in_order ps (String c s).
Proof. apply (in_order_app_l ps (String c "")). Qed.

Lemma in_order_here (p : string) (ps : list string) (s : string) :
  in_order ps s -> in_order (p :: ps) (p ++ s).
Proof. intros H. exists "", s. now split. Qed.

Lemma after_first_hit (p s : string) :
  startswith p s = true -> after_first p s = Some (drop (String.length p) s).
Proof. intros H. destruct s; simpl; now rewrite H. Qed.

Lemma after_first_app (p a b : string) :
  exists a', after_first p (a ++ p ++ b) = Some (a' ++ b).
Proof.
  induction a as [|x a IH].
  - exists "". simpl "++".
    rewrite after_first_hit by apply startswith_app. now rewrite drop_app.
  - destruct (startswith p (String x a ++ p ++ b)) eqn:E.
    + exists (drop (String.length p) (String x a ++ p)).
      rewrite (after_first_hit _ _ E).
      rewrite <- (append_assoc (String x a) p b).
      rewrite drop_app_le; [reflexivity|].
      rewrite length_append. lia.
    + simpl "++" in *. simpl after_first. rewrite E. exact IH.
Qed.

Lemma in_orderb_complete_app (ps : list string) :
  forall a s, in_order ps s -> in_orderb ps (a ++ s) = true.
Proof.
  induction ps as [|p ps IH]; intros a s H; simpl; [reflexivity|].
  destruct H as (a1 & b & -> & H).
  rewrite <- append_assoc.
  destruct (after_first_app p (a ++ a1) b) as [a' ->].
  now apply IH.
Qed.

Lemma in_orderb_complete (ps : list string) (s : string) :
  in_order ps s -> in_orderb ps s = true.
Proof. apply (in_orderb_complete_app ps ""). Qed.

End InOrder.

(** ** TemplateBuilder *)

Section Template.

Lemma strip_literal_app (p s r : string) :
  strip_literal p s = Some r -> s = p ++ r.
Proof.
  revert s. induction p as [|x p IH]; intros s H; simpl in *.
  - now injection H as ->.
  - destruct s as [|y s]; [discriminate|].
    destruct (Ascii.eqb x y) eqn:E; [|discriminate].
    apply Ascii.eqb_eq in E. subst y. f_equal. now apply IH.
Qed.

Lemma in_order_strip (p : string) (ps : list string) (s r : string) :
  strip_literal p s = Some r -> in_order ps r -> in_order (p :: ps) s.
Proof.
  intros H Hr. rewrite (strip_literal_app _ _ _ H). now apply in_order_here.
Qed.

(** Finds the strings one after the other in a text whose literal parts are
    written out. *)
Ltac find_in_order :=
  repeat lazymatch goal with
    | |- in_order [] _ => exact I
    | |- in_order (_ :: _) _ =>
        first [ eapply in_order_strip; [reflexivity|]
              | apply in_order_skip_char
              | apply in_order_app_l ]
    end.

Example template_demo :
  _create_latex_template "article" "Test" "" "\today" "" ["amsmath"] "" =
  join (nl ++ nl)
    ["\documentclass{article}"; "\usepackage[utf8]{inputenc}";
     "\usepackage[T1]{fontenc}"; "\usepackage[english]{babel}";
     "\usepackage{amsmath}"; "\title{Test}"; "\date{\today}";
     "\begin{document}"; "\maketitle"; "% Your content here";
     "\end{document}"].
Proof. reflexivity. Qed.

(** C1, as stated, fails: with the default author, date, content and
    geometry, the text of the article scenario does not contain
    [\maketitle] before [\begin{document}]. *)
Lemma template_scenario_title_first_fails :
  ~ in_order scenario_title_first
      (_create_latex_template "article" "Test" "" "\today" "" ["amsmath"] "").
Proof.
  intros H. apply in_orderb_complete in H. vm_compute in H. discriminate H.
Qed.

(** C1, amended: for every author, date, content and geometry, the text
    generated for document type [article], title [Test] and packages
    [amsmath] contains the document class, the [inputenc] and [amsmath]
    packages, [\title{Test}], [\begin{document}], [\maketitle] and
    [\end{document}], one after the other in this order. *)
Theorem template_scenario_order (author date content geometry : string) :
  in_order scenario_emitted
    (_create_latex_template "article" "Test" author date content ["amsmath"]
       geometry).
Proof.
  unfold scenario_emitted, _create_latex_template.
  destruct geometry, author, date, content; cbn -[in_order];
    rewrite ?append_assoc; cbn -[in_order]; find_in_order.
Qed.

End Template.

(** ** TextEditor *)

Section Editor.

Example splitlines_demo :
  splitlines ("ab" ++ nl ++ nl ++ "c" ++ nl) = ["ab"; ""; "c"].
Proof. reflexivity. Qed.

Example replace_demo : replace "aaa" "aa" "b" = "ba".
Proof. reflexivity. Qed.

Example count_demo : count "aaaa" "aa" = 2.
Proof. reflexivity. Qed.

Example insert_line_demo :
  edit_content "insert_after" "new" None (Some 1%Z) ("a" ++ nl ++ "b" ++ nl)
  = inr ("a" ++ nl ++ "new" ++ nl ++ "b").
Proof. reflexivity. Qed.

(** C4, as stated, fails: no content and texts exist for which [append]
    then [prepend] differs from [prepend] then [append]. *)
Lemma append_prepend_never_differ :
  ~ exists X a b : string,
      and_then (edit_content "append" a None None X)
               (edit_content "prepend" b None None)
      <> and_then (edit_content "prepend" b None None X)
                  (edit_content "append" a None None).
Proof.
  intros (X & a & b & H). apply H. cbn.
  now rewrite !append_assoc.
Qed.

(** C4, amended: [append] and [prepend] commute: for every content [X] and
    texts [a] and [b], whatever the other arguments, appending [a] and then
    prepending [b] gives the same text as prepending [b] and then appending
    [a], namely [b], a newline, [X], a newline, [a]. *)
Theorem append_prepend_commute (X a b : string)
  (s1 s2 : option string) (l1 l2 : option Z) :
  and_then (edit_content "append" a s1 l1 X) (edit_content "prepend" b s2 l2)
  = inr (b ++ nl ++ X ++ nl ++ a)
  /\ and_then (edit_content "prepend" b s2 l2 X)
              (edit_content "append" a s1 l1)
     = inr (b ++ nl ++ X ++ nl ++ a).
Proof.
  split; cbn; [reflexivity|]. now rewrite !append_assoc.
Qed.

Lemma join_cons_char (sep : string) (c : ascii) (p : string)
  (ps : list string) :
  join sep (String c p :: ps) = String c (join sep (p :: ps)).
Proof. destruct ps; reflexivity. Qed.

Lemma join_head (sep p : string) (ps : list string) :
  exists rest, join sep (p :: ps) = p ++ rest.
Proof.
  destruct ps as [|q ps].
  - exists "". simpl. now rewrite append_nil_r.
  - now exists (sep ++ join sep (q :: ps)).
Qed.

Lemma join_nil_cons (sep p : string) (ps : list string) :
  join sep ("" :: p :: ps) = sep ++ join sep (p :: ps).
Proof. reflexivity. Qed.

Lemma split_scan_nonempty (sep : string) (s : string) :
  forall skip, split_scan sep skip s <> [].
Proof.
  induction s as [|c s IH]; intros skip; simpl; [discriminate|].
  destruct skip; [|apply IH].
  destruct (startswith sep (String c s)); [discriminate|].
  destruct (split_scan sep 0 s); discriminate.
Qed.

(** The scans of [replace], [count] and [split] for a non-empty separator
    go through the same occurrences. *)
Lemma scans_agree (x : ascii) (old' new : string) (s : string) :
  let old := String x old' in
  forall skip,
    join old (split_scan old skip s) = drop skip s
    /\ replace_scan old new skip s = join new (split_scan old skip s)
    /\ List.length (split_scan old skip s) = S (count_scan old skip s)
    /\ Forall (fun p => contains old p = false) (split_scan old skip s).
Proof.
  intros old. induction s as [|c s IH]; intros skip.
  - simpl. rewrite drop_nil. repeat split; auto.
  - destruct skip as [|k].
    + cbn [split_scan replace_scan count_scan drop].
      destruct (startswith old (String c s)) eqn:E.
      * destruct (IH (String.length old - 1)) as (J & R & L & F).
        pose proof (split_scan_nonempty old s (String.length old - 1)) as N.
        destruct (split_scan old (String.length old - 1) s) as [|p ps];
          [congruence|].
        repeat split.
        -- rewrite join_nil_cons, J.
           rewrite (startswith_split _ _ E) at 1.
           subst old. simpl. now rewrite Nat.sub_0_r.
        -- rewrite join_nil_cons. now rewrite R.
        -- cbn [List.length]. now rewrite <- L.
        -- constructor; [reflexivity | exact F].
      * destruct (IH 0) as (J & R & L & F).
        pose proof (split_scan_nonempty old s 0) as N.
        destruct (split_scan old 0 s) as [|p ps]; [congruence|].
        repeat split.
        -- rewrite join_cons_char, J. reflexivity.
        -- rewrite join_cons_char. now rewrite R.
        -- exact L.
        -- inversion F as [|? ? Fp Fps]; subst. constructor; [|exact Fps].
           simpl. rewrite Fp, orb_false_r.
           destruct (startswith old (String c p)) eqn:Ep; [|reflexivity].
           destruct (join_head old p ps) as [rest Hrest].
           cbn [drop] in J. rewrite <- J, Hrest in E.
           apply (startswith_weaken _ _ rest) in Ep.
           cbn [append] in Ep. congruence.
    + simpl. apply IH.
Qed.

End Editor.

(** ** Regular expression scans *)

Section Scans.

Example finditer_demo :
  Re.finditer (Re.cmd "begin") "x\begin{a}\begin{}\begin{b c}\begin{d" =
  [Re.Match 1 "a"; Re.Match 18 "b c"].
Proof. reflexivity. Qed.

Example search_demo :
  Re.search (Re.cmd_opt "documentclass") "\documentclass[a4paper]{book}" =
  Some (Re.Match 0 "book").
Proof. reflexivity. Qed.








End Scans.

(** ** Validator *)

Section Validator.

Lemma check_environments_spec (begins ends : list string) :
  forall todo issues,
    fold_left
      (fun issues env =>
         if negb (PyList.count begins env =? PyList.count ends env)%nat
         then PyList.append issues ("Unmatched environment: " ++ env)
         else issues)
      todo issues
    = List.app issues (unmatched_reports begins ends todo).
Proof.
  unfold unmatched_reports.
  induction todo as [|env todo IH]; intros issues; cbn.
  - now rewrite app_nil_r.
  - rewrite IH.
    destruct (negb (PyList.count begins env =? PyList.count ends env)%nat).
    + unfold PyList.append. now rewrite <- app_assoc.
    + reflexivity.
Qed.

Lemma append_inj_l (p a b : string) : p ++ a = p ++ b -> a = b.
Proof.
  induction p as [|x p IH]; cbn; intros H; [exact H|].
  injection H as H. now apply IH.
Qed.

Lemma unmatched_reports_count (begins ends todo : list string)
  (name : string) :
  PyList.count (unmatched_reports begins ends todo)
               ("Unmatched environment: " ++ name)
  = if (PyList.count begins name =? PyList.count ends name)%nat
    then 0 else PyList.count todo name.
Proof.
  unfold unmatched_reports, PyList.count.
  induction todo as [|env todo IH]; cbn [flat_map].
  - now destruct (_ =? _)%nat.
  - rewrite count_occ_app, IH.
    destruct (string_dec env name) as [->|Hne].
    + rewrite count_occ_cons_eq by reflexivity.
      destruct (_ =? _)%nat; cbn [negb count_occ]; [reflexivity|].
      now destruct (string_dec _ _).
    + rewrite (count_occ_cons_neq _ _ Hne).
      destruct (negb _); cbn [count_occ]; [|reflexivity].
      destruct (string_dec _ _) as [E|_]; [|reflexivity].
      apply append_inj_l in E. contradiction.
Qed.

(** What the loop over [begins] reports for a name: nothing when its counts
    agree, and otherwise one issue for each of its [\begin] occurrences. *)
Lemma check_environments_reports (begins ends : list string) (name : string) :
  PyList.count (check_environments begins ends [])
               ("Unmatched environment: " ++ name)
  = if (PyList.count begins name =? PyList.count ends name)%nat
    then 0 else PyList.count begins name.
Proof.
  unfold check_environments. rewrite check_environments_spec. cbn [app].
  apply unmatched_reports_count.
Qed.

(** C2: the code reports no issue for a name that occurs only in [\end]
    commands, and reports a mismatched name once for each of its [\begin]
    occurrences rather than once. *)
Theorem environment_check_misses_end_only_and_repeats :
  validate_issues (nodup string_dec)
    "\documentclass{article}\begin{document}\end{a}\end{document}" = []
  /\ validate_issues (nodup string_dec)
       "\documentclass{article}\begin{document}\begin{a}\begin{a}\end{a}\end{document}"
     = ["Unmatched environment: a"; "Unmatched environment: a"]
  /\ environment_issues "\end{a}" = []
  /\ environment_issues "\begin{a}\begin{a}\end{a}"
     = ["Unmatched environment: a"; "Unmatched environment: a"].
Proof. repeat split; reflexivity. Qed.

End Validator.

(** ** StructureAnalyzer *)

Section Structure.

Example section_entries_demo :
  section_entries "\section{A}\chapter{B}\subsection{C}" =
  [("Chapter", Re.Match 11 "B"); ("Section", Re.Match 0 "A");
   ("Subsection", Re.Match 22 "C")].
Proof. reflexivity. Qed.

End Structure.

(** ** The tools *)

Section ToolFacts.

Context `{P : Platform}.

(** *** Worlds in which nothing was written *)

Lemma quiet_refl (w : world) : quiet w w.
Proof.
  split; [reflexivity|]. exists []. split; [now rewrite app_nil_r|constructor].
Qed.

Lemma quiet_trans (w1 w2 w3 : world) : quiet w1 w2 -> quiet w2 w3 -> quiet w1 w3.
Proof.
  intros [F1 (d1 & T1 & N1)] [F2 (d2 & T2 & N2)]. split; [congruence|].
  exists (d1 ++ d2)%list. split.
  - now rewrite T2, T1, app_assoc.
  - apply Forall_app. now split.
Qed.

Lemma io_query_quiet {A : Type} (ev : io_event) (f : FS -> oserror + A)
  (w : world) :
  is_write ev = false -> quiet w (snd (io_query ev f w)).
Proof.
  intros H. unfold io_query.
  destruct (f (fs w)); cbn; (split; [reflexivity|]);
    exists [ev]; split; auto.
Qed.

Lemma get_file_path_quiet (self : LaTeXServer) (file_path : string)
  (w : world) :
  quiet w (snd (_get_file_path self file_path w)).
Proof.
  unfold _get_file_path, bind, try_except_value_error, try_except,
    value_or_raise, io_resolve.
  pose proof (io_query_quiet (IoResolve (parent (base_path self)))
                (fun s => resolve s (parent (base_path self))) w eq_refl)
    as Q1.
  destruct (io_query _ _ w) as [[e|allowed] w1]; [exact Q1|].
  cbn [snd] in Q1.
  set (path := if negb (is_absolute (path_of file_path))
               then joinpath (base_path self) (path_of file_path)
               else path_of file_path).
  pose proof (io_query_quiet (IoResolve path) (fun s => resolve s path) w1
                eq_refl) as Q2.
  destruct (io_query _ _ w1) as [[e|resolved] w2]; cbn [snd] in Q2.
  - destruct (exn_value_error e); cbn; eapply quiet_trans; eauto.
  - destruct (relative_to resolved allowed); cbn;
      eapply quiet_trans; eauto.
Qed.

(** The path that [_get_file_path] returns, when it returns. *)
Lemma get_file_path_value (self : LaTeXServer) (file_path : string)
  (w w' : world) (path : Path) :
  _get_file_path self file_path w = (inr path, w') ->
  path = locate self file_path.
Proof.
  unfold _get_file_path, locate, bind, try_except_value_error, try_except,
    value_or_raise.
  destruct (io_resolve _ w) as [[e|allowed] w1]; [discriminate|].
  destruct (io_resolve _ w1) as [[e|resolved] w2].
  - destruct (exn_value_error e); discriminate.
  - destruct (relative_to resolved allowed); cbn; [discriminate|].
    now intros [= <- _].
Qed.

(** *** Path escape *)

Lemma get_file_path_escape (self : LaTeXServer) (file_path : string)
  (w : world) (allowed resolved : Path) (m : string) :
  resolve (fs w) (parent (base_path self)) = inr allowed ->
  resolve (fs w) (locate self file_path) = inr resolved ->
  relative_to resolved allowed = inl m ->
  _get_file_path self file_path w
  = (inl (Exn PathEscape true (escape_message file_path allowed)),
     after_resolutions self file_path w).
Proof.
  intros Ha Hr Hm.
  unfold _get_file_path, bind, try_except_value_error, try_except,
    value_or_raise, io_resolve, io_query, after_resolutions.
  fold (locate self file_path).
  rewrite Ha. cbn [fs trace]. rewrite Hr, Hm. cbn.
  now rewrite <- app_assoc.
Qed.

Lemma try_except_bind_raise {A B : Type} (m : M A) (k : A -> M B)
  (h : exn -> M B) (w w' : world) (e : exn) :
  m w = (inl e, w') -> try_except (bind m k) h w = h e w'.
Proof. intros H. unfold try_except, bind. now rewrite H. Qed.

(** C3: when the resolved path is not below the resolved parent of the base
    directory, each of the six tools returns its error text with the
    path-escape message, and has done nothing but the two path resolutions:
    no file is read, written or listed, and the file system is unchanged. *)
Theorem path_escape_is_rejected_without_io (self : LaTeXServer)
  (file_path : string) (w : world) (allowed resolved : Path) (m : string) :
  resolve (fs w) (parent (base_path self)) = inr allowed ->
  resolve (fs w) (locate self file_path) = inr resolved ->
  relative_to resolved allowed = inl m ->
  let msg := escape_message file_path allowed in
  let w' := after_resolutions self file_path w in
  (forall document_type title author date content packages geometry,
      _create_latex_file self file_path document_type title author date
        content packages geometry w
      = (inr (Failed PathEscape, "Error creating LaTeX file: " ++ msg), w'))
  /\ (forall operation new_text search_text line_number,
         _edit_latex_file self file_path operation new_text search_text
           line_number w
         = (inr (Failed PathEscape, "Error editing LaTeX file: " ++ msg), w'))
  /\ _read_latex_file self file_path w
     = (inr (Failed PathEscape, "Error reading LaTeX file: " ++ msg), w')
  /\ (forall recursive,
         _list_latex_files self file_path recursive w
         = (inr (Failed PathEscape, "Error listing LaTeX files: " ++ msg), w'))
  /\ _validate_latex self file_path w
     = (inr (Failed PathEscape, "Error validating LaTeX file: " ++ msg), w')
  /\ _get_latex_structure self file_path w
     = (inr (Failed PathEscape, "Error analyzing LaTeX structure: " ++ msg),
        w')
  /\ fs w' = fs w
  /\ written (trace w') = written (trace w).
Proof.
  intros Ha Hr Hm msg w'.
  pose proof (get_file_path_escape self file_path w allowed resolved m
                Ha Hr Hm) as E.
  repeat split; intros;
    try (unfold _create_latex_file, _edit_latex_file, _read_latex_file,
           _list_latex_files, _validate_latex, _get_latex_structure;
         now rewrite (try_except_bind_raise _ _ _ _ _ _ E)).
  subst w'. unfold after_resolutions, written. cbn [trace].
  rewrite flat_map_app. cbn. now rewrite app_nil_r.
Qed.

End ToolFacts.

(** ** Editing a file *)

Section EditFacts.

Context `{P : Platform}.

(** C9: when [_edit_latex_file] returns an error other than an exception of
    the platform (the path escapes, the file is missing, a field is missing,
    or the operation is unknown), nothing was written: the file system is
    as it was and the call only consulted it. *)
Theorem edit_is_atomic_on_error (self : LaTeXServer) (file_path : string)
  (operation new_text : string) (search_text : option string)
  (line_number : option Z) (w w' : world) (f : failure) (text : string) :
  _edit_latex_file self file_path operation new_text search_text line_number w
  = (inr (Failed f, text), w') ->
  f <> InternalException ->
  quiet w w'.
Proof.
  unfold _edit_latex_file, try_except, bind.
  pose proof (get_file_path_quiet self file_path w) as Q0.
  destruct (_get_file_path self file_path w) as [[e|path] w1];
    cbn [snd] in Q0.
  { cbn. now intros [= _ _ <-] _. }
  pose proof (io_query_quiet (IoExists path)
                (fun s => inr (path_exists s path)) w1 eq_refl) as Q1.
  unfold io_exists.
  destruct (io_query (IoExists path) _ w1) as [[e|found] w2];
    cbn [snd] in Q1.
  { cbn. intros [= _ _ <-] _. eapply quiet_trans; eauto. }
  destruct found; cbn [negb].
  2:{ cbn. intros [= _ _ <-] _. eapply quiet_trans; eauto. }
  pose proof (io_query_quiet (IoRead path) (fun s => read_text s path) w2
                eq_refl) as Q2.
  unfold io_read_text.
  destruct (io_query (IoRead path) _ w2) as [[e|content] w3];
    cbn [snd] in Q2.
  { cbn. intros [= _ _ <-] _. eauto using quiet_trans. }
  destruct (edit_content operation new_text search_text line_number content)
    as [early|content'].
  { cbn. intros [= _ <-] _. eauto using quiet_trans. }
  unfold io_write_text, io_update.
  destruct (write_text (fs w3) path content') as [[e|] fs'].
  - cbn. intros [= <- _ _] H. now elim H.
  - cbn. discriminate.
Qed.

(** The write of [_edit_latex_file] comes last and only after the edit of
    the content that was read has succeeded. *)
Lemma edit_writes_after_validation (self : LaTeXServer) (file_path : string)
  (operation new_text : string) (search_text : option string)
  (line_number : option Z) (w : world) :
  let w' := snd (_edit_latex_file self file_path operation new_text
                   search_text line_number w) in
  quiet w w'
  \/ exists w0 content content',
       quiet w w0
       /\ read_text (fs w0) (locate self file_path) = inr content
       /\ edit_content operation new_text search_text line_number content
          = inr content'
       /\ trace w'
          = (trace w0 ++ [IoWrite (locate self file_path) content'])%list.
Proof.
  unfold _edit_latex_file, try_except, bind.
  pose proof (get_file_path_quiet self file_path w) as Q0.
  destruct (_get_file_path self file_path w) as [[e|path] w1] eqn:G;
    cbn [snd] in Q0.
  { left. exact Q0. }
  apply get_file_path_value in G. subst path.
  set (path := locate self file_path).
  pose proof (io_query_quiet (IoExists path)
                (fun s => inr (path_exists s path)) w1 eq_refl) as Q1.
  unfold io_exists.
  destruct (io_query (IoExists path) _ w1) as [[e|found] w2];
    cbn [snd] in Q1.
  { left. cbn. eauto using quiet_trans. }
  destruct found; cbn [negb].
  2:{ left. cbn. eauto using quiet_trans. }
  unfold io_read_text, io_query.
  assert (Q3 : quiet w (World (fs w2) (trace w2 ++ [IoRead path]))).
  { apply (quiet_trans w w2); [now apply (quiet_trans w w1)|].
    split; [reflexivity|]. exists [IoRead path]. split; auto. }
  destruct (read_text (fs w2) path) as [e|content] eqn:R.
  { left. exact Q3. }
  cbn iota.
  destruct (edit_content operation new_text search_text line_number content)
    as [early|content'] eqn:E.
  { left. exact Q3. }
  right. exists (World (fs w2) (trace w2 ++ [IoRead path])), content, content'.
  split; [exact Q3|]. split; [exact R|]. split; [exact E|].
  unfold io_write_text, io_update. cbn [fs trace].
  destruct (write_text (fs w2) path content') as [[e|] fs']; reflexivity.
Qed.

End EditFacts.

Section ReplaceFacts.

Context `{P : Platform}.

Lemma replace_without_search_is_quiet (self : LaTeXServer)
  (file_path new_text : string) (search_text : option string)
  (line_number : option Z) (w : world) :
  truthy_opt search_text = false ->
  quiet w (snd (_edit_latex_file self file_path "replace" new_text
                  search_text line_number w)).
Proof.
  intros H.
  pose proof (edit_writes_after_validation self file_path "replace"
                new_text search_text line_number w)
    as [Q|(w0 & c & c' & _ & _ & E & _)]; [exact Q|].
  unfold edit_content in E. cbn in E. rewrite H in E. discriminate E.
Qed.

(** C6: for a non-empty [search_text] that occurs [k] times in the content,
    the content is [k + 1] pieces free of [search_text] joined by it, and
    [replace] returns the same pieces joined by [new_text]; with [k = 0] the
    content is returned as it is; and without a [search_text] the edit
    fails with the missing-field error and the call writes nothing. *)
Theorem replace_replaces_every_occurrence (self : LaTeXServer)
  (file_path content search_text new_text : string)
  (line_number : option Z) :
  search_text <> "" ->
  exists pieces,
    List.length pieces = S (count content search_text)
    /\ content = join search_text pieces
    /\ Forall (fun p => contains search_text p = false) pieces
    /\ edit_content "replace" new_text (Some search_text) line_number content
       = inr (join new_text pieces)
    /\ (count content search_text = 0 ->
        edit_content "replace" new_text (Some search_text) line_number
          content = inr content)
    /\ edit_content "replace" new_text None line_number content
       = inl (Failed MissingField,
              "search_text is required for replace operation")
    /\ forall w,
         quiet w (snd (_edit_latex_file self file_path "replace" new_text
                         None line_number w)).
Proof.
  intros Hne. destruct search_text as [|x old']; [congruence|].
  destruct (scans_agree x old' new_text content 0) as (J & R & L & F).
  exists (split content (String x old')). unfold split.
  assert (E : edit_content "replace" new_text (Some (String x old'))
                line_number content
              = inr (join new_text (split_scan (String x old') 0 content))).
  { unfold edit_content. cbn. unfold replace. now rewrite R. }
  conjuncts; try assumption; try reflexivity.
  - now rewrite J.
  - intros K. rewrite E. f_equal.
    change (count content (String x old'))
      with (count_scan (String x old') 0 content) in K.
    rewrite K in L. cbn [drop] in J.
    destruct (split_scan (String x old') 0 content) as [|p [|q ps]];
      try discriminate L.
    cbn in *. congruence.
  - intros w. now apply replace_without_search_is_quiet.
Qed.

(** C10: an empty [search_text] is treated as an absent one by every
    operation, in the edit of the content and in the whole call: [replace]
    fails with the missing-field error and writes nothing, and the two
    insert operations take the [line_number] path, failing when the line
    number is not valid. *)
Theorem empty_search_text_is_absent (self : LaTeXServer)
  (file_path operation new_text content : string) (line_number : option Z) :
  edit_content operation new_text (Some "") line_number content
  = edit_content operation new_text None line_number content
  /\ _edit_latex_file self file_path operation new_text (Some "") line_number
     = _edit_latex_file self file_path operation new_text None line_number
  /\ edit_content "replace" new_text (Some "") line_number content
     = inl (Failed MissingField,
            "search_text is required for replace operation")
  /\ edit_content "insert_before" new_text (Some "") line_number content
     = (if valid_line line_number content
        then inr (join nl (PyList.insert (splitlines content)
                             (default 0%Z line_number - 1) new_text))
        else inl (Failed MissingField,
                  "search_text or valid line_number is required"))
  /\ edit_content "insert_after" new_text (Some "") line_number content
     = (if valid_line line_number content
        then inr (join nl (PyList.insert (splitlines content)
                             (default 0%Z line_number) new_text))
        else inl (Failed MissingField,
                  "search_text or valid line_number is required"))
  /\ forall w,
       quiet w (snd (_edit_latex_file self file_path "replace" new_text
                       (Some "") line_number w)).
Proof.
  conjuncts; try reflexivity.
  intros w. now apply replace_without_search_is_quiet.
Qed.

End ReplaceFacts.

(** ** Replies and their prefixes *)

Section ReplyFacts.

Context `{P : Platform}.

Lemma yields_ret {A : Type} (a : A) (Q : A -> Prop) : Q a -> yields (ret a) Q.
Proof. intros H w a' w' [= <- _]. exact H. Qed.

Lemma yields_raise {A : Type} (e : exn) (Q : A -> Prop) :
  yields (raise e) Q.
Proof. intros w a w' H. discriminate H. Qed.

Lemma yields_bind {A B : Type} (m : M A) (k : A -> M B) (Q : B -> Prop) :
  (forall a, yields (k a) Q) -> yields (bind m k) Q.
Proof.
  intros H w b w'. unfold bind.
  destruct (m w) as [[e|a] w1]; [discriminate|]. apply H.
Qed.

Lemma total_yields (m : M reply) :
  total_consistent m -> yields m consistent.
Proof.
  intros H w r w' E. destruct (H w) as (r' & w'' & E' & C).
  rewrite E in E'. now injection E' as -> _.
Qed.

(** A body whose replies are consistent, under a handler that turns every
    exception into a consistent reply. *)
Lemma handled (m : M reply) (h : exn -> reply) :
  yields m consistent -> (forall e, consistent (h e)) ->
  total_consistent (try_except m (fun e => ret (h e))).
Proof.
  intros Hm Hh w. unfold try_except.
  destruct (m w) as [[e|r] w1] eqn:E.
  - exists (h e), w1. split; [reflexivity | apply Hh].
  - exists r, w1. split; [reflexivity | exact (Hm _ _ _ E)].
Qed.

Lemma failed_consistent (p x : string) (f : failure) :
  In p failure_prefixes -> consistent (Failed f, p ++ x).
Proof.
  intros H. unfold consistent, has_failure_prefix. cbn [fst snd].
  apply existsb_exists. exists p. split; [exact H | apply startswith_app].
Qed.

(** A reply is consistent: by computation, or by its failure prefix. *)
Ltac reply_consistent :=
  first [ reflexivity
        | apply failed_consistent; cbn; tauto ].

(** The early returns of the edit: a [replace] without [search_text], an
    insert with neither [search_text] nor a valid [line_number], and an
    unknown operation. *)
Lemma edit_content_early_cases (operation new_text : string)
  (search_text : option string) (line_number : option Z)
  (content : string) (early : reply) :
  edit_content operation new_text search_text line_number content = inl early
  -> (operation = "replace" /\ truthy_opt search_text = false
      /\ early = (Failed MissingField,
                  "search_text is required for replace operation"))
     \/ ((operation = "insert_before" \/ operation = "insert_after")
         /\ truthy_opt search_text = false
         /\ valid_line line_number content = false
         /\ early = (Failed MissingField,
                     "search_text or valid line_number is required"))
     \/ (~ In operation ["replace"; "insert_before"; "insert_after";
                         "append"; "prepend"]
         /\ early = (Failed UnknownOperation,
                     "Unknown operation: " ++ operation)).
Proof.
  unfold edit_content. fold (valid_line line_number content).
  destruct (operation =? "replace") eqn:E1.
  { apply String.eqb_eq in E1.
    destruct (truthy_opt search_text); cbn [negb]; [discriminate|].
    intros [= <-]. left. auto. }
  destruct (operation =? "insert_before") eqn:E2.
  { apply String.eqb_eq in E2.
    destruct (truthy_opt search_text); [discriminate|].
    destruct (valid_line line_number content); [discriminate|].
    intros [= <-]. right. left. auto. }
  destruct (operation =? "insert_after") eqn:E3.
  { apply String.eqb_eq in E3.
    destruct (truthy_opt search_text); [discriminate|].
    destruct (valid_line line_number content); [discriminate|].
    intros [= <-]. right. left. auto. }
  destruct (operation =? "append") eqn:E4; [discriminate|].
  destruct (operation =? "prepend") eqn:E5; [discriminate|].
  intros [= <-]. right. right. split; [|reflexivity].
  apply String.eqb_neq in E1, E2, E3, E4, E5.
  cbn. intros [H|[H|[H|[H|[H|[]]]]]]; congruence.
Qed.

Lemma edit_content_early (operation new_text : string)
  (search_text : option string) (line_number : option Z)
  (content : string) (early : reply) :
  edit_content operation new_text search_text line_number content = inl early
  -> consistent early.
Proof.
  intros H. apply edit_content_early_cases in H
    as [(_ & _ & ->)|[(_ & _ & _ & ->)|(_ & ->)]];
    first [ reflexivity
          | apply (failed_consistent "Unknown operation: " operation);
            cbn; tauto ].
Qed.

(** Goes through a tool body, one statement at a time. *)
Ltac walk :=
  repeat first
    [ apply yields_ret
    | apply yields_raise
    | apply yields_bind; intros ?
    | match goal with
      | |- yields (if ?b then _ else _) _ => destruct b
      | |- yields (match ?x with _ => _ end) _ => destruct x eqn:?
      end ].

Lemma create_consistent self file_path document_type title author date
  content packages geometry :
  total_consistent
    (_create_latex_file self file_path document_type title author date
       content packages geometry).
Proof. apply handled; [walk|intros e]; reply_consistent. Qed.

Lemma edit_consistent self file_path operation new_text search_text
  line_number :
  total_consistent
    (_edit_latex_file self file_path operation new_text search_text
       line_number).
Proof.
  apply handled; [walk|intros e]; try reply_consistent.
  eapply edit_content_early; eassumption.
Qed.

Lemma read_consistent self file_path :
  total_consistent (_read_latex_file self file_path).
Proof. apply handled; [walk|intros e]; reply_consistent. Qed.

Lemma list_consistent self directory_path recursive :
  total_consistent (_list_latex_files self directory_path recursive).
Proof. apply handled; [walk|intros e]; reply_consistent. Qed.

Lemma validate_consistent self file_path :
  total_consistent (_validate_latex self file_path).
Proof. apply handled; [walk|intros e]; reply_consistent. Qed.

Lemma structure_consistent self file_path :
  total_consistent (_get_latex_structure self file_path).
Proof. apply handled; [walk|intros e]; reply_consistent. Qed.

Lemma call_tool_consistent self name a :
  total_consistent (call_tool self name a).
Proof.
  unfold call_tool, bad_call. apply handled; [|intros e; reply_consistent].
  repeat match goal with
    | |- yields (if ?b then _ else _) _ => destruct b
    end;
    first [ apply yields_raise
          | apply yields_ret; reply_consistent
          | apply total_yields;
            first [ apply create_consistent | apply edit_consistent
                  | apply read_consistent | apply list_consistent
                  | apply validate_consistent | apply structure_consistent ] ].
Qed.

(** C5, amended: every tool invocation returns a text, whatever happens,
    and the invocation failed exactly when this text begins with one of the
    failure prefixes of the server: ["Error: "] for a call that does not
    bind, ["Error creating LaTeX file: "] and its five siblings for a path
    escape or an exception inside a tool, ["File not found: "],
    ["Directory not found: "], the two missing-field messages,
    ["Unknown operation: "] and ["Unknown tool: "]. *)
Theorem failures_are_told_by_prefix (self : LaTeXServer) (name : string)
  (a : arguments) (w : world) :
  exists o text w',
    call_tool self name a w = (inr (o, text), w')
    /\ (o <> Success <-> has_failure_prefix text = true).
Proof.
  destruct (call_tool_consistent self name a w) as ([o text] & w' & E & C).
  exists o, text, w'. split; [exact E|].
  unfold consistent in C. cbn [fst snd] in C. rewrite C.
  destruct o; split; intros H; congruence.
Qed.

End ReplyFacts.

(** ** The tools on the in-memory platform *)

Section Runs.

Example read_demo :
  fst (Sim.read_run "paper.tex")
  = inr (Success,
         "Contents of /srv/docs/tex/paper.tex:" ++ nl ++ nl
         ++ "\documentclass{article}" ++ nl ++ "\begin{document}" ++ nl
         ++ "Hello" ++ nl ++ "\end{document}").
Proof. vm_compute. reflexivity. Qed.

(** C5, as stated, fails: an unknown tool, a missing file and a path outside
    the allowed root are failures whose texts do not begin with
    ["Error: "]. *)
Lemma failure_texts_without_error_prefix :
  fst (@call_tool Sim.platform Sim.server "compile_latex" Sim.no_arguments
         Sim.boot)
  = inr (Failed UnknownTool, "Unknown tool: compile_latex")
  /\ startswith "Error: " "Unknown tool: compile_latex" = false
  /\ fst (Sim.read_run "absent.tex")
     = inr (Failed FileNotFound, "File not found: /srv/docs/tex/absent.tex")
  /\ startswith "Error: " "File not found: /srv/docs/tex/absent.tex" = false
  /\ fst (Sim.read_run "/etc/passwd")
     = inr (Failed PathEscape,
            "Error reading LaTeX file: Path /etc/passwd is outside the allowed base path (/srv/docs)")
  /\ startswith "Error: "
       "Error reading LaTeX file: Path /etc/passwd is outside the allowed base path (/srv/docs)"
     = false.
Proof. conjuncts; vm_compute; reflexivity. Qed.

(** A path outside [/srv/docs] is rejected by [_read_latex_file] after the
    two resolutions. *)
Lemma path_escape_witness :
  @relative_to Sim.platform (Sim.of_string "/etc/passwd")
    (Sim.of_string "/srv/docs")
  = inl "'/etc/passwd' is not in the subpath of '/srv/docs'"
  /\ Sim.read_run "/etc/passwd"
     = (inr (Failed PathEscape,
             "Error reading LaTeX file: "
             ++ @escape_message Sim.platform "/etc/passwd"
                  (Sim.of_string "/srv/docs")),
        @after_resolutions Sim.platform Sim.server "/etc/passwd" Sim.boot).
Proof.
  split; [vm_compute; reflexivity|].
  assert (Ha : @resolve Sim.platform (fs Sim.boot)
                 (parent (base_path Sim.server))
               = inr (Sim.of_string "/srv/docs"))
    by (vm_compute; reflexivity).
  assert (Hr : @resolve Sim.platform (fs Sim.boot)
                 (locate Sim.server "/etc/passwd")
               = inr (Sim.of_string "/etc/passwd"))
    by (vm_compute; reflexivity).
  assert (Hm : @relative_to Sim.platform (Sim.of_string "/etc/passwd")
                 (Sim.of_string "/srv/docs")
               = inl "'/etc/passwd' is not in the subpath of '/srv/docs'")
    by (vm_compute; reflexivity).
  exact (proj1 (proj2 (proj2
           (@path_escape_is_rejected_without_io Sim.platform Sim.server
              "/etc/passwd" Sim.boot _ _ _ Ha Hr Hm)))).
Defined.

(** Replacing the two occurrences of ["a"] in ["a-b-a"]. *)
Lemma replace_witness :
  "a" <> ""
  /\ exists pieces,
       List.length pieces = S (count "a-b-a" "a")
       /\ "a-b-a" = join "a" pieces
       /\ edit_content "replace" "X" (Some "a") None "a-b-a"
          = inr (join "X" pieces).
Proof.
  split; [discriminate|].
  destruct (@replace_replaces_every_occurrence Sim.platform Sim.server
              "paper.tex" "a-b-a" "a" "X" None)
    as (pieces & L & J & _ & E & _); [discriminate|].
  exists pieces. conjuncts; assumption.
Defined.

(** Editing a file that does not exist. *)
Lemma atomic_witness :
  Sim.edit_absent_run
  = (inr (Failed FileNotFound, "File not found: /srv/docs/tex/absent.tex"),
     snd Sim.edit_absent_run)
  /\ quiet Sim.boot (snd Sim.edit_absent_run).
Proof.
  assert (H : Sim.edit_absent_run
              = (inr (Failed FileNotFound,
                      "File not found: /srv/docs/tex/absent.tex"),
                 snd Sim.edit_absent_run))
    by (vm_compute; reflexivity).
  split; [exact H|].
  refine (@edit_is_atomic_on_error Sim.platform Sim.server "absent.tex"
            "append" "x" None None Sim.boot _ FileNotFound _ H _).
  discriminate.
Defined.

End Runs.

(** * Further properties *)

(** ** The template as a list of parts *)

Section TemplateParts.

Lemma fold_append_map {A : Type} (f : A -> string) (l : list A) :
  forall acc,
    fold_left (fun parts x => PyList.append parts (f x)) l acc
    = List.app acc (map f l).
Proof.
  induction l as [|x l IH]; intros acc; cbn.
  - now rewrite app_nil_r.
  - rewrite IH. unfold PyList.append. now rewrite <- app_assoc.
Qed.

Lemma template_as_parts (document_type title author date content : string)
  (packages : list string) (geometry : string) :
  _create_latex_template document_type title author date content packages
    geometry
  = join (nl ++ nl)
      (template_parts document_type title author date content packages
         geometry).
Proof.
  unfold _create_latex_template, template_parts. rewrite fold_append_map.
  f_equal.
  destruct (truthy geometry), (truthy title), (truthy author), (truthy date),
    (truthy content);
    unfold PyList.append, optional_part; cbn [List.app];
    rewrite <- ?app_assoc; reflexivity.
Qed.

Lemma join_cons (sep x y : string) (l : list string) :
  join sep (x :: y :: l) = x ++ sep ++ join sep (y :: l).
Proof. reflexivity. Qed.

(** What comes before the last parts of a joined list. *)
Lemma join_suffix (sep : string) (l1 l2 : list string) :
  exists before, join sep (List.app l1 l2) = before ++ join sep l2.
Proof.
  induction l1 as [|y l1 [before IH]].
  - now exists "".
  - cbn [List.app]. destruct (List.app l1 l2) as [|z l] eqn:E.
    + apply app_eq_nil in E as [-> ->]. exists y. cbn.
      now rewrite append_nil_r.
    + exists (y ++ sep ++ before). rewrite join_cons, IH.
      now rewrite !append_assoc.
Qed.


Lemma join_cons_app (sep x : string) (l : list string) (y : string)
  (l' : list string) :
  join sep (x :: List.app l (y :: l'))
  = x ++ sep ++ join sep (List.app l (y :: l')).
Proof.
  destruct (List.app l (y :: l')) eqn:E; [|reflexivity].
  now destruct l.
Qed.

Lemma in_order_take_part (sep x : string) (ps l : list string) :
  in_order ps (join sep l) -> in_order (x :: ps) (join sep (x :: l)).
Proof.
  intros H. destruct l as [|y l].
  - exists "", "". split; [now rewrite append_nil_r | exact H].
  - rewrite join_cons. apply in_order_here. now apply in_order_app_l.
Qed.

Lemma in_order_skip_part (sep x : string) (ps l : list string) :
  in_order ps (join sep l) -> in_order ps (join sep (x :: l)).
Proof.
  intros H. destruct l as [|y l].
  - cbn in *. rewrite <- (append_nil_r x). now apply in_order_app_l.
  - rewrite join_cons. now do 2 apply in_order_app_l.
Qed.

Lemma in_order_take_parts (sep : string) (l0 ps l : list string) :
  in_order ps (join sep l) ->
  in_order (List.app l0 ps) (join sep (List.app l0 l)).
Proof.
  intros H. induction l0 as [|x l0 IH]; [exact H|].
  cbn [List.app]. now apply in_order_take_part.
Qed.

Lemma in_order_skip_parts (sep : string) (l0 ps l : list string) :
  in_order ps (join sep l) -> in_order ps (join sep (List.app l0 l)).
Proof.
  intros H. induction l0 as [|x l0 IH]; [exact H|].
  cbn [List.app]. now apply in_order_skip_part.
Qed.

Lemma contains_here (p s : string) : contains p (p ++ s) = true.
Proof.
  destruct (p ++ s) eqn:E; cbn; rewrite <- E, startswith_app; reflexivity.
Qed.

Lemma contains_app_l (p a s : string) :
  contains p s = true -> contains p (a ++ s) = true.
Proof.
  intros H. induction a as [|c a IH]; [exact H|].
  cbn. rewrite IH. apply orb_true_r.
Qed.

Lemma in_order_contains (ps : list string) :
  forall s, in_order ps s -> Forall (fun p => contains p s = true) ps.
Proof.
  induction ps as [|p ps IH]; intros s H; constructor.
  - destruct H as (a & b & -> & _). apply contains_app_l, contains_here.
  - destruct H as (a & b & -> & H). apply IH in H.
    eapply Forall_impl; [|exact H]. cbn. intros q Hq.
    now do 2 apply contains_app_l.
Qed.

(** The first part of the template is the class line. *)
Lemma template_class_line_first
  (document_type title author date content : string)
  (packages : list string) (geometry : string) :
  exists rest,
    _create_latex_template document_type title author date content packages
      geometry
    = "\documentclass{" ++ document_type ++ "}" ++ nl ++ nl ++ rest.
Proof.
  rewrite template_as_parts. unfold template_parts. cbv zeta.
  cbn [List.app]. rewrite !app_assoc, join_cons_app, !append_assoc.
  eexists. reflexivity.
Qed.

(** The two markers of the document environment are in the template. *)
Lemma template_contains_environment
  (document_type title author date content : string)
  (packages : list string) (geometry : string) :
  Forall
    (fun p =>
       contains p
         (_create_latex_template document_type title author date content
            packages geometry) = true)
    ["\begin{document}"; "\end{document}"].
Proof.
  apply in_order_contains.
  rewrite template_as_parts. unfold template_parts. cbv zeta.
  apply (in_order_skip_parts _ [_]).
  do 5 apply in_order_skip_parts.
  apply (in_order_take_parts _ ["\begin{document}"] ["\end{document}"]).
  apply in_order_skip_parts.
  apply in_order_skip_part.
  apply (in_order_take_part _ _ [] []). exact I.
Qed.

(** X1: every generated document begins with its [\documentclass] line,
    and ends with the document environment, whose body is [\maketitle]
    (when there is a title) followed by the content as given, or by the
    placeholder comment when the content is empty. *)
Theorem template_frame (document_type title author date content : string)
  (packages : list string) (geometry : string) :
  let text :=
    _create_latex_template document_type title author date content packages
      geometry in
  let body := if truthy content then content else "% Your content here" in
  (exists rest,
      text = "\documentclass{" ++ document_type ++ "}" ++ nl ++ nl ++ rest)
  /\ exists preamble,
       text = preamble ++ "\begin{document}" ++ nl ++ nl
              ++ (if truthy title then "\maketitle" ++ nl ++ nl else "")
              ++ body ++ nl ++ nl ++ "\end{document}".
Proof.
  cbv zeta. rewrite template_as_parts. unfold template_parts. split.
  - cbn [List.app]. rewrite !app_assoc. rewrite join_cons_app.
    rewrite !append_assoc. eexists. reflexivity.
  - destruct (join_suffix (nl ++ nl)
                ["\documentclass{" ++ document_type ++ "}"]
                (List.app
                   (optional_part (truthy geometry)
                      ("\usepackage[" ++ geometry ++ "]{geometry}"))
                   (List.app
                      (map package_line (List.app default_packages packages))
                      (List.app
                         (optional_part (truthy title)
                            ("\title{" ++ title ++ "}"))
                         (List.app
                            (optional_part (truthy author)
                               ("\author{" ++ author ++ "}"))
                            (List.app
                               (optional_part (truthy date)
                                  ("\date{" ++ date ++ "}"))
                               (List.app ["\begin{document}"]
                                  (List.app
                                     (optional_part (truthy title)
                                        "\maketitle")
                                     [if truthy content then content
                                      else "% Your content here";
                                      "\end{document}"])))))))) as [b1 ->].
    do 5 match goal with
      | |- context [join ?sep (List.app ?l1 (List.app ?l2 ?l3))] =>
          let b := fresh "b" in
          destruct (join_suffix sep l1 (List.app l2 l3)) as [b ->]
      end.
    destruct (truthy title); unfold optional_part; cbn [List.app].
    + exists (b1 ++ b ++ b0 ++ b2 ++ b3 ++ b4). rewrite !append_assoc.
      reflexivity.
    + exists (b1 ++ b ++ b0 ++ b2 ++ b3 ++ b4). rewrite !append_assoc.
      reflexivity.
Qed.

End TemplateParts.

(** ** Generated documents, validated and analysed *)

Section GeneratedDocuments.


Lemma unmatched_reports_prefix (begins ends todo : list string) :
  Forall (fun i => startswith "Missing " i = false)
         (unmatched_reports begins ends todo).
Proof.
  unfold unmatched_reports. induction todo as [|env todo IH]; cbn [flat_map].
  - constructor.
  - apply Forall_app. split; [|exact IH].
    destruct (negb _); repeat constructor.
Qed.

(** A text with the three scaffolding commands gets no "Missing" issue. *)
Lemma scaffolded_has_no_missing_issue (set_iter : list string -> list string)
  (content : string) :
  contains "\documentclass" content = true ->
  contains "\begin{document}" content = true ->
  contains "\end{document}" content = true ->
  Forall (fun i => startswith "Missing " i = false)
         (validate_issues set_iter content).
Proof.
  intros H1 H2 H3. unfold validate_issues. rewrite H1, H2, H3. cbn [negb].
  unfold check_environments. rewrite check_environments_spec.
  assert (H : Forall (fun i => startswith "Missing " i = false)
                (List.app
                   (if negb (count content "{" =? count content "}")%nat
                    then PyList.append []
                           ("Unbalanced braces: "
                            ++ str_of_nat (count content "{") ++ " opening, "
                            ++ str_of_nat (count content "}") ++ " closing")
                    else [])
                   (unmatched_reports
                      (Re.findall (Re.cmd "begin") content)
                      (Re.findall (Re.cmd "end") content)
                      (Re.findall (Re.cmd "begin") content)))).
  { apply Forall_app. split; [|apply unmatched_reports_prefix].
    destruct (negb _); repeat constructor. }
  destruct (set_iter _); [exact H|].
  unfold PyList.append at 1. apply Forall_app. split; [exact H|].
  repeat constructor.
Qed.

(** X3: the validator never reports a missing [\documentclass],
    [\begin{document}] or [\end{document}] for a generated document,
    whatever the arguments it was generated from. *)
Theorem generated_document_has_scaffolding
  (set_iter : list string -> list string)
  (document_type title author date content : string)
  (packages : list string) (geometry : string) :
  Forall (fun issue => startswith "Missing " issue = false)
    (validate_issues set_iter
       (_create_latex_template document_type title author date content
          packages geometry)).
Proof.
  destruct (template_class_line_first document_type title author date content
              packages geometry) as [rest E1].
  pose proof (template_contains_environment document_type title author date
                content packages geometry) as E2.
  inversion E2 as [|? ? Hb E3]; subst. inversion E3 as [|? ? He _]; subst.
  apply scaffolded_has_no_missing_issue; [|exact Hb|exact He].
  rewrite E1. apply (contains_here "\documentclass").
Qed.

Lemma until_complete (stop : ascii) (g rest : string) :
  contains (String stop "") g = false ->
  Re.until stop (g ++ String stop rest) = Some (g, rest).
Proof.
  induction g as [|c g IH]; cbn [append Re.until]; intros H.
  - now rewrite Ascii.eqb_refl.
  - cbn in H. apply orb_false_elim in H as [Hc Hg].
    rewrite startswith_cons, startswith_nil, andb_true_r in Hc.
    rewrite Ascii.eqb_sym, Hc. now rewrite (IH Hg).
Qed.

Lemma brace_group_complete (g rest : string) :
  g <> "" ->
  contains "}" g = false ->
  Re.brace_group (String "{" (g ++ String "}" rest)) = Some (g, rest).
Proof.
  intros Hne Hbrace. unfold Re.brace_group.
  rewrite Ascii.eqb_refl, (until_complete "}" g rest Hbrace).
  destruct g; [congruence | reflexivity].
Qed.

Lemma match_at_bracketless (name g rest : string) :
  g <> "" ->
  contains "}" g = false ->
  exists len,
    Re.match_at (Re.cmd_opt name)
      (("\" ++ name) ++ String "{" (g ++ String "}" rest))
    = Some (g, len).
Proof.
  intros Hne Hbrace. eexists. unfold Re.match_at, Re.cmd_opt.
  cbv beta iota delta [Re.command Re.optional_bracket].
  rewrite startswith_app, drop_app.
  unfold Re.skip_bracket.
  change (Ascii.eqb "{" "[") with false. cbv iota.
  rewrite (brace_group_complete g rest Hne Hbrace). reflexivity.
Qed.

Lemma finditer_scan_hit (p : Re.pattern) (pos : nat) (c : ascii)
  (s g : string) (len : nat) :
  Re.match_at p (String c s) = Some (g, len) ->
  Re.finditer_scan p pos 0 (String c s)
  = Re.Match pos g :: Re.finditer_scan p (S pos) (len - 1) s.
Proof. intros H. cbn [Re.finditer_scan]. now rewrite H. Qed.

(** A text that begins with a class line: the first match of the
    [\documentclass] pattern is that line. *)
Lemma search_class_line (document_type rest : string) :
  document_type <> "" ->
  contains "}" document_type = false ->
  Re.search (Re.cmd_opt "documentclass")
    ("\documentclass{" ++ document_type ++ "}" ++ rest)
  = Some (Re.Match 0 document_type).
Proof.
  intros Hne Hbrace.
  destruct (match_at_bracketless "documentclass" document_type rest Hne
              Hbrace) as [len M].
  unfold Re.search, Re.finditer.
  change ("\documentclass{" ++ document_type ++ "}" ++ rest)
    with (String "\"
            ("documentclass"
             ++ String "{" (document_type ++ String "}" rest))) in *.
  change (("\" ++ "documentclass")
          ++ String "{" (document_type ++ String "}" rest))
    with (String "\"
            ("documentclass"
             ++ String "{" (document_type ++ String "}" rest))) in M.
  rewrite (finditer_scan_hit _ 0 _ _ _ _ M). reflexivity.
Qed.

(** X4: the structure analyser reads back the document type of a generated
    document: when [document_type] is not empty and has no closing brace,
    the first [\documentclass] match is at the start of the text, and the
    first line of the report is the document class. *)
Theorem generated_document_class_round_trip
  (set_iter : list string -> list string)
  (document_type title author date content : string)
  (packages : list string) (geometry : string) :
  document_type <> "" ->
  contains "}" document_type = false ->
  let text :=
    _create_latex_template document_type title author date content packages
      geometry in
  Re.search (Re.cmd_opt "documentclass") text
  = Some (Re.Match 0 document_type)
  /\ hd_error (structure_lines set_iter text)
     = Some ("Document class: " ++ document_type).
Proof.
  intros Hne Hbrace text.
  assert (S : Re.search (Re.cmd_opt "documentclass") text
              = Some (Re.Match 0 document_type)).
  { subst text.
    destruct (template_class_line_first document_type title author date
                content packages geometry) as [rest E].
    rewrite E. now apply search_class_line. }
  split; [exact S|].
  unfold structure_lines. rewrite S.
  generalize dependent text. intros text _.
  unfold PyList.append. cbn [List.app].
  destruct (Re.search (Re.cmd "title") text),
    (Re.search (Re.cmd "author") text),
    (Re.findall (Re.cmd_opt "usepackage") text); reflexivity.
Qed.

End GeneratedDocuments.

(** ** More on the text editor *)

Section EditorMore.

Lemma count_scan_absent (sub s : string) :
  forall skip, contains sub s = false -> count_scan sub skip s = 0.
Proof.
  induction s as [|c s IH]; intros skip H; [reflexivity|].
  cbn in H. apply orb_false_elim in H as [H1 H2].
  cbn [count_scan]. destruct skip; [rewrite H1|]; now apply IH.
Qed.

Lemma replace_scan_absent (x : ascii) (old' new content : string) :
  count_scan (String x old') 0 content = 0 ->
  replace_scan (String x old') new 0 content = content.
Proof.
  intros K.
  destruct (scans_agree x old' new content 0) as (J & R & L & _).
  cbv zeta in *. rewrite R. rewrite K in L. cbn [drop] in J.
  destruct (split_scan (String x old') 0 content) as [|p [|q ps]];
    try discriminate L.
  exact J.
Qed.

Lemma length_join (sep : string) (pieces : list string) :
  pieces <> [] ->
  String.length (join sep pieces) + String.length sep
  = total_length pieces + List.length pieces * String.length sep.
Proof.
  induction pieces as [|p [|q ps] IH]; intros H; [congruence| |].
  - cbn. lia.
  - rewrite join_cons, !length_append.
    change (total_length (p :: q :: ps))
      with (String.length p + total_length (q :: ps)).
    change (List.length (p :: q :: ps)) with (S (List.length (q :: ps))).
    specialize (IH ltac:(discriminate)). lia.
Qed.

(** X5: replacing a non-empty text by itself leaves every content as it
    is. *)
Theorem replace_by_itself_is_identity (content search_text : string)
  (line_number : option Z) :
  search_text <> "" ->
  edit_content "replace" search_text (Some search_text) line_number content
  = inr content.
Proof.
  intros Hne. destruct search_text as [|x old']; [congruence|].
  destruct (scans_agree x old' (String x old') content 0) as (J & R & _).
  cbv zeta in *. unfold edit_content. cbn. unfold replace.
  rewrite R. now rewrite J.
Qed.

(** X6: the length of the text after [replace] is the length before, less
    the occurrences of [search_text] and plus as many [new_text]. *)
Theorem replace_length (content search_text new_text result : string)
  (line_number : option Z) :
  search_text <> "" ->
  edit_content "replace" new_text (Some search_text) line_number content
  = inr result ->
  String.length result + count content search_text * String.length search_text
  = String.length content + count content search_text * String.length new_text.
Proof.
  intros Hne. destruct search_text as [|x old']; [congruence|].
  destruct (scans_agree x old' new_text content 0) as (J & R & L & _).
  cbv zeta in *. unfold edit_content. cbn. unfold replace.
  rewrite R. intros [= <-]. cbn [drop] in J.
  change (count content (String x old'))
    with (count_scan (String x old') 0 content).
  pose proof (split_scan_nonempty (String x old') content 0) as N.
  pose proof (length_join (String x old') _ N) as L1.
  pose proof (length_join new_text _ N) as L2.
  rewrite J in L1. rewrite L in L1, L2.
  rewrite Nat.mul_succ_l in L1, L2.
  change (String.length (String x old')) with (S (String.length old')) in *.
  lia.
Qed.

(** X7: when [search_text] does not occur in the content, the three
    search-based operations return the content unchanged (they do not
    fail). *)
Theorem search_absent_leaves_content (content search_text new_text : string)
  (line_number : option Z) :
  contains search_text content = false ->
  count content search_text = 0
  /\ edit_content "replace" new_text (Some search_text) line_number content
     = inr content
  /\ edit_content "insert_before" new_text (Some search_text) line_number
       content = inr content
  /\ edit_content "insert_after" new_text (Some search_text) line_number
       content = inr content.
Proof.
  intros H. destruct search_text as [|x old'].
  { destruct content; discriminate H. }
  pose proof (count_scan_absent _ _ 0 H) as K.
  conjuncts; [exact K| | |];
    unfold edit_content; cbn; unfold replace;
    now rewrite (replace_scan_absent _ _ _ _ K).
Qed.

(** X8: with a [search_text] that occurs [k] times, [insert_before] puts
    [new_text] and a newline before each of the [k] occurrences and
    [insert_after] puts a newline and [new_text] after each of them: the
    pieces between the occurrences are kept. *)
Theorem insert_at_every_occurrence (content search_text new_text : string)
  (line_number : option Z) :
  search_text <> "" ->
  exists pieces,
    List.length pieces = S (count content search_text)
    /\ content = join search_text pieces
    /\ edit_content "insert_before" new_text (Some search_text) line_number
         content
       = inr (join (new_text ++ nl ++ search_text) pieces)
    /\ edit_content "insert_after" new_text (Some search_text) line_number
         content
       = inr (join (search_text ++ nl ++ new_text) pieces).
Proof.
  intros Hne. destruct search_text as [|x old']; [congruence|].
  set (old := String x old').
  destruct (scans_agree x old' (new_text ++ nl ++ old) content 0)
    as (J & R1 & L & _).
  destruct (scans_agree x old' (old ++ nl ++ new_text) content 0)
    as (_ & R2 & _).
  cbv zeta in *. fold old in J, R1, R2, L.
  exists (split_scan old 0 content). conjuncts.
  - exact L.
  - now rewrite J.
  - change (edit_content "insert_before" new_text (Some old) line_number
              content)
      with (@inr reply string
              (replace_scan old (new_text ++ nl ++ old) 0 content)).
    now rewrite R1.
  - change (edit_content "insert_after" new_text (Some old) line_number
              content)
      with (@inr reply string
              (replace_scan old (old ++ nl ++ new_text) 0 content)).
    now rewrite R2.
Qed.

Lemma firstn_skipn_middle {A : Type} (before : list A) (x : A)
  (after : list A) :
  firstn (List.length before) (List.app before (x :: after)) = before
  /\ skipn (List.length before) (List.app before (x :: after)) = x :: after.
Proof.
  split.
  - rewrite firstn_app, Nat.sub_diag, firstn_all. cbn. apply app_nil_r.
  - rewrite skipn_app, Nat.sub_diag, skipn_all. reflexivity.
Qed.

(** X9: without a [search_text], a [line_number] [n] that names a line of
    the content (the lines before it being [n - 1]) makes [insert_before]
    put [new_text] as a line of its own right before that line, and
    [insert_after] right after it; the lines are joined again by
    newlines. *)
Theorem insert_at_line (content new_text : string)
  (search_text : option string) (before : list string) (line : string)
  (after : list string) :
  truthy_opt search_text = false ->
  splitlines content = List.app before (line :: after) ->
  let n := Z.of_nat (S (List.length before)) in
  edit_content "insert_before" new_text search_text (Some n) content
  = inr (join nl (List.app before (new_text :: line :: after)))
  /\ edit_content "insert_after" new_text search_text (Some n) content
     = inr (join nl (List.app before (line :: new_text :: after))).
Proof.
  intros Hs Hl n.
  assert (Hlen : (n <= Z.of_nat (List.length (splitlines content)))%Z).
  { rewrite Hl, length_app. cbn [List.length]. subst n. lia. }
  assert (Hv : ((1 <=? n)%Z
                && (n <=? Z.of_nat (List.length (splitlines content)))%Z)
               = true).
  { apply andb_true_intro. split; [apply Z.leb_le; subst n; lia
                                  | now apply Z.leb_le]. }
  unfold edit_content. cbn -[splitlines Z.of_nat Z.sub]. rewrite Hs, Hv.
  unfold PyList.insert.
  destruct (firstn_skipn_middle before line after) as [Hf Hk].
  split; f_equal; f_equal.
  - replace (n - 1 <? 0)%Z with false by (symmetry; apply Z.ltb_ge; subst n; lia).
    rewrite Z.min_l by lia.
    replace (Z.to_nat (n - 1)) with (List.length before) by (subst n; lia).
    rewrite Hl, Hf, Hk. reflexivity.
  - replace (n <? 0)%Z with false by (symmetry; apply Z.ltb_ge; subst n; lia).
    rewrite Z.min_l by lia.
    replace (Z.to_nat n) with (List.length (List.app before [line]))
      by (rewrite length_app; cbn; subst n; lia).
    rewrite Hl.
    replace (List.app before (line :: after))
      with (List.app (List.app before [line]) after)
      by (now rewrite <- app_assoc).
    rewrite firstn_app, Nat.sub_diag, firstn_all.
    rewrite skipn_app, Nat.sub_diag, skipn_all.
    cbn [firstn skipn List.app].
    rewrite app_nil_r, <- app_assoc. reflexivity.
Qed.

(** X10: without a [search_text], a [line_number] below 1 or above the
    number of lines makes both insert operations fail with the
    missing-field error; in an empty content, which has no line, every
    [line_number] does. *)
Theorem insert_line_out_of_range (content new_text : string)
  (search_text : option string) (n : Z) :
  truthy_opt search_text = false ->
  (n < 1 \/ Z.of_nat (List.length (splitlines content)) < n)%Z ->
  let failed : reply + string :=
    inl (Failed MissingField, "search_text or valid line_number is required")
  in
  edit_content "insert_before" new_text search_text (Some n) content = failed
  /\ edit_content "insert_after" new_text search_text (Some n) content
     = failed
  /\ forall m,
       edit_content "insert_before" new_text search_text (Some m) "" = failed
       /\ edit_content "insert_after" new_text search_text (Some m) ""
          = failed.
Proof.
  intros Hs Hn failed.
  assert (Hv : ((1 <=? n)%Z
                && (n <=? Z.of_nat (List.length (splitlines content)))%Z)
               = false).
  { apply andb_false_iff. destruct Hn; [left; apply Z.leb_gt
                                       | right; apply Z.leb_gt]; lia. }
  conjuncts.
  - unfold edit_content. cbn -[splitlines Z.of_nat]. now rewrite Hs, Hv.
  - unfold edit_content. cbn -[splitlines Z.of_nat]. now rewrite Hs, Hv.
  - intros m. unfold edit_content. cbn. rewrite Hs.
    destruct (1 <=? m)%Z eqn:E1, (m <=? 0)%Z eqn:E2; try (now split).
    apply Z.leb_le in E1, E2. lia.
Qed.

End EditorMore.

(** ** More on the scans of the validator and the analyser *)

Section ScansMore.

Lemma until_no_stop (stop : ascii) (s g rest : string) :
  Re.until stop s = Some (g, rest) -> contains (String stop "") g = false.
Proof.
  revert g. induction s as [|c s IH]; intros g; cbn [Re.until];
    [discriminate|].
  destruct (Ascii.eqb c stop) eqn:E.
  - now intros [= <- _].
  - destruct (Re.until stop s) as [[g' rest']|]; [|discriminate].
    intros [= <- <-]. cbn.
    rewrite startswith_cons, Ascii.eqb_sym, E. cbn. now apply IH.
Qed.

Lemma match_at_group (p : Re.pattern) (s g : string) (len : nat) :
  Re.match_at p s = Some (g, len) -> brace_free_name g.
Proof.
  unfold Re.match_at.
  destruct (startswith _ s); [|discriminate].
  destruct (if Re.optional_bracket p then _ else _) as [s2|]; [|discriminate].
  unfold Re.brace_group. destruct s2 as [|c s3]; [discriminate|].
  destruct (Ascii.eqb c "{"); [|discriminate].
  destruct (Re.until "}" s3) as [[g' rest]|] eqn:U; [|discriminate].
  destruct (truthy g') eqn:T; [|discriminate].
  intros [= <- _]. split.
  - intros ->. discriminate T.
  - exact (until_no_stop _ _ _ _ U).
Qed.

Lemma finditer_scan_groups (p : Re.pattern) (s : string) :
  forall pos skip,
    Forall (fun m => brace_free_name (Re.group1 m))
           (Re.finditer_scan p pos skip s).
Proof.
  induction s as [|c s IH]; intros pos skip; cbn [Re.finditer_scan];
    [constructor|].
  destruct skip; [|apply IH].
  destruct (Re.match_at p (String c s)) as [[g len]|] eqn:E; [|apply IH].
  constructor; [exact (match_at_group _ _ _ _ E) | apply IH].
Qed.

(** X11: every name that the patterns of the server capture (environment,
    label and reference names, package names, the document class, title,
    author and headings) is not empty and holds no closing brace: a value
    with nested braces is cut at its first closing brace. *)
Theorem captured_names_are_brace_free (p : Re.pattern) (s : string) :
  Forall brace_free_name (Re.findall p s)
  /\ Forall (fun e => brace_free_name (Re.group1 (snd e)))
            (section_entries s).
Proof.
  split.
  - unfold Re.findall, Re.finditer. apply Forall_map.
    apply finditer_scan_groups.
  - unfold section_entries. apply Forall_flat_map.
    apply Forall_forall. intros [q level] _.
    apply Forall_map. cbn. apply finditer_scan_groups.
Qed.

Lemma unmatched_reports_nil (begins ends todo : list string) :
  unmatched_reports begins ends todo = []
  <-> forall name, In name todo ->
                   PyList.count begins name = PyList.count ends name.
Proof.
  unfold unmatched_reports. induction todo as [|env todo IH]; cbn [flat_map].
  - split; [intros _ name [] | reflexivity].
  - destruct (PyList.count begins env =? PyList.count ends env)%nat eqn:E;
      cbn [negb].
    + apply Nat.eqb_eq in E. cbn [List.app]. rewrite IH. split.
      * intros H name [<-|Hn]; [exact E | now apply H].
      * intros H name Hn. apply H. now right.
    + apply Nat.eqb_neq in E. split; [discriminate|].
      intros H. exfalso. apply E, H. now left.
Qed.

(** X12: the environment check reports nothing exactly when every name
    that occurs in a [\begin] has as many [\end] as [\begin]; names that
    occur in [\end] only are not looked at. *)
Theorem environment_issues_none_iff (content : string) :
  environment_issues content = []
  <-> forall name,
        In name (Re.findall (Re.cmd "begin") content) ->
        PyList.count (Re.findall (Re.cmd "begin") content) name
        = PyList.count (Re.findall (Re.cmd "end") content) name.
Proof.
  unfold environment_issues, check_environments.
  rewrite check_environments_spec. cbn [List.app].
  apply unmatched_reports_nil.
Qed.

End ScansMore.

(** ** More on the tools *)

Section ToolsMore.

Context `{P : Platform}.

Lemma nw_ret {A : Type} (a : A) : never_writes (ret a).
Proof. intros w. apply quiet_refl. Qed.

Lemma nw_raise {A : Type} (e : exn) : never_writes (@raise P A e).
Proof. intros w. apply quiet_refl. Qed.

Lemma nw_bind {A B : Type} (m : M A) (k : A -> M B) :
  never_writes m -> (forall a, never_writes (k a)) -> never_writes (bind m k).
Proof.
  intros Hm Hk w. specialize (Hm w). unfold bind.
  destruct (m w) as [[e|a] w1]; cbn [snd] in *; [exact Hm|].
  exact (quiet_trans _ _ _ Hm (Hk a w1)).
Qed.

Lemma nw_try_except {A : Type} (m : M A) (h : exn -> M A) :
  never_writes m -> (forall e, never_writes (h e)) ->
  never_writes (try_except m h).
Proof.
  intros Hm Hh w. specialize (Hm w). unfold try_except.
  destruct (m w) as [[e|a] w1]; cbn [snd] in *; [|exact Hm].
  exact (quiet_trans _ _ _ Hm (Hh e w1)).
Qed.

Lemma nw_io_query {A : Type} (ev : io_event) (f : FS -> oserror + A) :
  is_write ev = false -> never_writes (io_query ev f).
Proof. intros H w. now apply io_query_quiet. Qed.

Lemma nw_value_or_raise {A : Type} (r : string + A) :
  never_writes (value_or_raise r).
Proof. destruct r; [apply nw_raise | apply nw_ret]. Qed.

Lemma nw_get_file_path (self : LaTeXServer) (file_path : string) :
  never_writes (_get_file_path self file_path).
Proof. intros w. apply get_file_path_quiet. Qed.

Lemma nw_list_entries (self : LaTeXServer) (tex_files : list Path) :
  forall file_list, never_writes (list_entries self tex_files file_list).
Proof.
  induction tex_files as [|f rest IH]; intros file_list; cbn [list_entries].
  - apply nw_ret.
  - apply nw_bind; [apply nw_value_or_raise|]. intros rel.
    apply nw_bind; [now apply nw_io_query|]. intros size. apply IH.
Qed.

(** Goes through a tool that only consults the file system. *)
Ltac no_write :=
  unfold io_exists, io_is_dir, io_read_text, io_glob, io_stat, io_resolve;
  repeat first
    [ apply nw_ret
    | apply nw_raise
    | apply nw_get_file_path
    | apply nw_list_entries
    | apply nw_value_or_raise
    | apply nw_io_query; reflexivity
    | apply nw_bind; [|intros ?]
    | apply nw_try_except; [|intros ?]
    | match goal with
      | |- never_writes (if ?b then _ else _) => destruct b
      | |- never_writes (match ?x with _ => _ end) => destruct x
      end ].

(** X13: the four tools that read, list, validate and analyse never write:
    whatever their arguments and result, the file system is left as it was
    and no file is written or directory created. *)
Theorem read_only_tools_never_write (self : LaTeXServer)
  (file_path : string) (recursive : bool) :
  never_writes (_read_latex_file self file_path)
  /\ never_writes (_list_latex_files self file_path recursive)
  /\ never_writes (_validate_latex self file_path)
  /\ never_writes (_get_latex_structure self file_path).
Proof.
  conjuncts;
    unfold _read_latex_file, _list_latex_files, _validate_latex,
      _get_latex_structure;
    no_write.
Qed.

(** X14: a path whose resolved form lies below the resolved parent of the
    base directory is accepted: [_get_file_path] returns the path itself
    when it is absolute and the path joined to the base directory
    otherwise (not its resolved form), after the two resolutions only. *)
Theorem get_file_path_accepts (self : LaTeXServer) (file_path : string)
  (w : world) (allowed resolved relative : Path) :
  resolve (fs w) (parent (base_path self)) = inr allowed ->
  resolve (fs w) (locate self file_path) = inr resolved ->
  relative_to resolved allowed = inr relative ->
  _get_file_path self file_path w
  = (inr (if is_absolute (path_of file_path) then path_of file_path
          else joinpath (base_path self) (path_of file_path)),
     after_resolutions self file_path w).
Proof.
  intros Ha Hr Hm.
  unfold _get_file_path, bind, try_except_value_error, try_except,
    value_or_raise, io_resolve, io_query, after_resolutions.
  fold (locate self file_path).
  rewrite Ha. cbn [fs trace]. rewrite Hr, Hm. cbn.
  rewrite <- app_assoc. unfold locate.
  now destruct (is_absolute (path_of file_path)).
Qed.

Lemma forallb_false_of {A : Type} (f : A -> bool) (l : list A) (x : A) :
  In x l -> f x = false -> forallb f l = false.
Proof.
  intros Hin Hf. destruct (forallb f l) eqn:E; [|reflexivity].
  rewrite forallb_forall in E. rewrite (E x Hin) in Hf. discriminate.
Qed.

Lemma binds_false (params required : list string) (a : arguments) :
  (exists k, In k (keys a) /\ mem k params = false)
  \/ (exists r, In r required /\ mem r (keys a) = false) ->
  binds params required a = false.
Proof.
  unfold binds. intros [(k & Hk & Hm)|(r & Hr & Hm)].
  - now rewrite (forallb_false_of _ _ k Hk Hm).
  - rewrite (forallb_false_of _ _ r Hr Hm). apply andb_false_r.
Qed.

(** X15: a call of one of the six tools with a key that the tool does not
    declare, or without one that it requires, is answered by
    ["Error: "] and the message of the failed call, and nothing is done:
    the world is as before. *)
Theorem bad_call_is_rejected_before_io (self : LaTeXServer) (tool : string)
  (a : arguments) (w : world) :
  In tool tool_names ->
  (exists k, In k (keys a) /\ mem k (tool_parameters tool) = false)
  \/ (exists r, In r (tool_required tool) /\ mem r (keys a) = false) ->
  call_tool self tool a w
  = (inr (Failed InternalException,
          "Error: " ++ type_error ("_" ++ tool) (keys a)), w).
Proof.
  intros Hin Hbad. apply binds_false in Hbad.
  cbn in Hin.
  repeat destruct Hin as [<-|Hin]; try contradiction;
    lazy beta iota delta
      [tool_parameters tool_required String.eqb Ascii.eqb Bool.eqb andb]
      in Hbad;
    unfold call_tool;
    lazy beta iota delta [String.eqb Ascii.eqb Bool.eqb andb];
    rewrite Hbad; reflexivity.
Qed.

(** X16: a call of a tool that does not exist is answered by
    ["Unknown tool: "] and the name, whatever the arguments, and nothing is
    done. *)
Theorem unknown_tool_does_nothing (self : LaTeXServer) (tool : string)
  (a : arguments) (w : world) :
  ~ In tool tool_names ->
  call_tool self tool a w
  = (inr (Failed UnknownTool, "Unknown tool: " ++ tool), w).
Proof.
  intros H. unfold call_tool, try_except.
  repeat match goal with
    | |- context [tool =? ?n] =>
        destruct (String.eqb_spec tool n) as [->|_];
        [exfalso; apply H; cbn; tauto|]
    end.
  reflexivity.
Qed.

(** X17: no exception leaves a tool: each of the six methods, and the
    dispatcher, returns a reply in every world and for all arguments. *)
Theorem tools_never_raise (self : LaTeXServer) (w : world) :
  (forall file_path document_type title author date content packages
          geometry,
      exists r w',
        _create_latex_file self file_path document_type title author date
          content packages geometry w = (inr r, w'))
  /\ (forall file_path operation new_text search_text line_number,
         exists r w',
           _edit_latex_file self file_path operation new_text search_text
             line_number w = (inr r, w'))
  /\ (forall file_path,
         exists r w', _read_latex_file self file_path w = (inr r, w'))
  /\ (forall directory_path recursive,
         exists r w',
           _list_latex_files self directory_path recursive w = (inr r, w'))
  /\ (forall file_path,
         exists r w', _validate_latex self file_path w = (inr r, w'))
  /\ (forall file_path,
         exists r w', _get_latex_structure self file_path w = (inr r, w'))
  /\ (forall tool a, exists r w', call_tool self tool a w = (inr r, w')).
Proof.
  conjuncts; intros;
    match goal with
    | |- exists r w', ?m w = _ =>
        assert (T : total_consistent m)
          by first [ apply create_consistent | apply edit_consistent
                   | apply read_consistent | apply list_consistent
                   | apply validate_consistent | apply structure_consistent
                   | apply call_tool_consistent ];
        destruct (T w) as (r & w' & E & _); now exists r, w'
    end.
Qed.

End ToolsMore.

(** ** What the writing tools do when they succeed *)

Section Effects.

Context `{P : Platform}.

Lemma get_file_path_ok (self : LaTeXServer) (file_path : string)
  (w w1 : world) (path : Path) :
  _get_file_path self file_path w = (inr path, w1) ->
  path = locate self file_path /\ w1 = after_resolutions self file_path w.
Proof.
  unfold _get_file_path, bind, try_except_value_error, try_except,
    value_or_raise, io_resolve, io_query, after_resolutions.
  fold (locate self file_path).
  destruct (resolve (fs w) (parent (base_path self))) as [e|allowed];
    [discriminate|].
  cbn [fs trace].
  destruct (resolve (fs w) (locate self file_path)) as [e|resolved].
  - destruct (exn_value_error (of_oserror e)); discriminate.
  - destruct (relative_to resolved allowed); cbn; [discriminate|].
    intros [= <- <-]. now rewrite <- app_assoc.
Qed.

(** X18: a successful [create_latex_file] resolves the two paths, creates
    the parent directory of the target, and then writes the template built
    from its arguments to the target, in this order and nothing else; its
    reply shows the path and, after ["Content:"], the very text written. *)
Theorem create_effect (self : LaTeXServer) (file_path : string)
  (document_type title author date content : string)
  (packages : option (list string)) (geometry : string)
  (w w' : world) (text : string) :
  _create_latex_file self file_path document_type title author date content
    packages geometry w = (inr (Success, text), w') ->
  let path := locate self file_path in
  let latex_content :=
    _create_latex_template document_type title author date content
      (default [] packages) geometry in
  text = "Successfully created LaTeX file: " ++ path_str path ++ nl ++ nl
         ++ "Content:" ++ nl ++ latex_content
  /\ trace w'
     = List.app (trace w)
         [IoResolve (parent (base_path self)); IoResolve path;
          IoMkdir (parent path); IoWrite path latex_content]
  /\ exists fs1,
       mkdir_parents (fs w) (parent path) = (None, fs1)
       /\ write_text fs1 path latex_content = (None, fs w').
Proof.
  unfold _create_latex_file, try_except, bind.
  destruct (_get_file_path self file_path w) as [[e|path] w1] eqn:G;
    [discriminate|].
  apply get_file_path_ok in G as [-> ->].
  unfold io_mkdir, io_write_text, io_update, after_resolutions.
  cbn [fs trace].
  destruct (mkdir_parents (fs w) (parent (locate self file_path)))
    as [[e|] fs1]; [discriminate|].
  cbn [fs trace].
  fold (default [] packages).
  destruct (write_text fs1 (locate self file_path) _) as [[e|] fs2] eqn:W;
    [discriminate|].
  intros [= <- <-]. cbv zeta. conjuncts.
  - reflexivity.
  - cbn [trace]. now rewrite <- !app_assoc.
  - exists fs1. split; [reflexivity | exact W].
Qed.

(** X19: a successful [edit_latex_file] found the target, read it, and
    wrote back, with one write, the edit of the content it read; besides
    the two resolutions and the existence test it did nothing else. *)
Theorem edit_effect (self : LaTeXServer) (file_path : string)
  (operation new_text : string) (search_text : option string)
  (line_number : option Z) (w w' : world) (text : string) :
  _edit_latex_file self file_path operation new_text search_text line_number w
  = (inr (Success, text), w') ->
  let path := locate self file_path in
  exists content content',
    path_exists (fs w) path = true
    /\ read_text (fs w) path = inr content
    /\ edit_content operation new_text search_text line_number content
       = inr content'
    /\ write_text (fs w) path content' = (None, fs w')
    /\ trace w'
       = List.app (trace w)
           [IoResolve (parent (base_path self)); IoResolve path;
            IoExists path; IoRead path; IoWrite path content']
    /\ text = "Successfully edited LaTeX file: " ++ path_str path ++ nl ++ nl
              ++ "Operation: " ++ operation ++ nl ++ "File updated.".
Proof.
  unfold _edit_latex_file, try_except, bind.
  destruct (_get_file_path self file_path w) as [[e|path] w1] eqn:G;
    [discriminate|].
  apply get_file_path_ok in G as [-> ->].
  unfold io_exists, io_read_text, io_write_text, io_query, io_update,
    after_resolutions.
  cbv beta zeta. cbn [fs trace].
  destruct (path_exists (fs w) (locate self file_path)) eqn:X;
    cbn [negb]; [|discriminate].
  cbn [fs trace].
  destruct (read_text (fs w) (locate self file_path)) as [e|content] eqn:R;
    [discriminate|].
  destruct (edit_content operation new_text search_text line_number content)
    as [[o t]|content'] eqn:E.
  { intros [= -> _ _].
    apply edit_content_early_cases in E
      as [(_ & _ & [= ])|[(_ & _ & _ & [= ])|(_ & [= ])]]. }
  cbn [fs trace].
  destruct (write_text (fs w) (locate self file_path) content')
    as [[e|] fs2] eqn:W; [discriminate|].
  intros [= <- <-]. cbv zeta. exists content, content'. conjuncts; auto.
  cbn [trace]. now rewrite <- !app_assoc.
Qed.

End Effects.

(** ** The resource handlers *)

Section ResourceFacts.

Context `{P : Platform}.

Variable is_file : FS -> Path -> bool.
Variable suffix : Path -> string.

(** X20: [read_resource] refuses, without touching the file system, a URI
    that does not begin with ["file://"] and a path whose suffix is not
    [.tex]; the exception is raised again to the caller. *)
Theorem read_resource_rejects_without_io (uri : string) (w : world) :
  startswith "file://" uri = false
  \/ (suffix (path_of (drop 7 uri)) =? ".tex") = false ->
  exists e,
    read_resource suffix uri w = (inl e, w)
    /\ exn_msg e
       = (if startswith "file://" uri
          then "File not found or not a LaTeX file: "
               ++ path_str (path_of (drop 7 uri))
          else "Unsupported URI scheme: " ++ uri).
Proof.
  intros H. unfold read_resource, try_except, bind, raise.
  destruct (startswith "file://" uri) eqn:S.
  - destruct H as [H|H]; [discriminate|]. rewrite H. cbn.
    eexists. split; reflexivity.
  - eexists. split; reflexivity.
Qed.

(** X21: [read_resource] makes no path check: for every existing path with
    the suffix [.tex], wherever it lies, it reads the file and returns its
    text (or raises the exception of the read), after the existence test
    only; no path is resolved or compared with the base directory. *)
Theorem read_resource_is_not_confined (p : string) (w : world) :
  (suffix (path_of p) =? ".tex") = true ->
  path_exists (fs w) (path_of p) = true ->
  read_resource suffix ("file://" ++ p) w
  = (match read_text (fs w) (path_of p) with
     | inl e => inl (of_oserror e)
     | inr text => inr text
     end,
     World (fs w) (List.app (trace w) [IoExists (path_of p);
                                       IoRead (path_of p)])).
Proof.
  intros Hs Hx. unfold read_resource, try_except, bind.
  rewrite startswith_app.
  change (drop 7 ("file://" ++ p)) with p. rewrite Hs.
  unfold io_exists, io_read_text, io_query. cbn [fs trace]. rewrite Hx.
  cbn [andb fs trace].
  destruct (read_text (fs w) (path_of p)); cbn; now rewrite <- app_assoc.
Qed.

Context {Resource : Type}.
Variable make_Resource : string -> string -> string -> string
                         -> option Resource.



End ResourceFacts.

(** ** The outline of the structure report *)

Section Outline.

Context `{P : Platform}.














End Outline.

(** ** More runs on the in-memory platform *)

Section MoreRuns.

Example list_resources_demo :
  fst (SimFiles.list_run (fun _ => true))
  = inr [SimFiles.MkResource "file:///srv/docs/tex/paper.tex" "paper.tex"
           "LaTeX file: paper.tex" "text/x-tex"].
Proof. vm_compute. reflexivity. Qed.

(** A constructor that raises ends the listing without an exception. *)
Example list_resources_refused_demo :
  fst (SimFiles.list_run (fun _ => false)) = inr [].
Proof. vm_compute. reflexivity. Qed.

(** The class of a generated [book]. *)
Lemma class_round_trip_witness :
  "book" <> "" /\ contains "}" "book" = false
  /\ Re.search (Re.cmd_opt "documentclass")
       (_create_latex_template "book" "T" "" "\today" "" [] "a4paper")
     = Some (Re.Match 0 "book").
Proof.
  split; [discriminate|]. split; [reflexivity|].
  exact (proj1 (generated_document_class_round_trip (fun l => l) "book" "T"
                  "" "\today" "" [] "a4paper" ltac:(discriminate) eq_refl)).
Defined.

Lemma replace_by_itself_witness :
  "ab" <> ""
  /\ edit_content "replace" "ab" (Some "ab") None "xabyab" = inr "xabyab".
Proof.
  split; [discriminate|].
  apply (replace_by_itself_is_identity "xabyab" "ab" None). discriminate.
Defined.

Lemma replace_length_witness :
  "ab" <> ""
  /\ String.length "xQQQyQQQ" + count "xabyab" "ab" * String.length "ab"
     = String.length "xabyab" + count "xabyab" "ab" * String.length "QQQ".
Proof.
  split; [discriminate|].
  apply (replace_length "xabyab" "ab" "QQQ" "xQQQyQQQ" None);
    [discriminate | reflexivity].
Defined.

Lemma search_absent_witness :
  contains "zz" "xabyab" = false
  /\ edit_content "insert_before" "new" (Some "zz") None "xabyab"
     = inr "xabyab".
Proof.
  split; [reflexivity|].
  exact (proj1 (proj2 (proj2
           (search_absent_leaves_content "xabyab" "zz" "new" None eq_refl)))).
Defined.

Lemma insert_at_every_occurrence_witness :
  "ab" <> ""
  /\ exists pieces,
       List.length pieces = S (count "xabyab" "ab")
       /\ "xabyab" = join "ab" pieces
       /\ edit_content "insert_before" "N" (Some "ab") None "xabyab"
          = inr (join ("N" ++ nl ++ "ab") pieces)
       /\ edit_content "insert_after" "N" (Some "ab") None "xabyab"
          = inr (join ("ab" ++ nl ++ "N") pieces).
Proof.
  split; [discriminate|].
  apply (insert_at_every_occurrence "xabyab" "ab" "N" None). discriminate.
Defined.

Lemma insert_at_line_witness :
  splitlines ("a" ++ nl ++ "b" ++ nl ++ "c" ++ nl) = List.app ["a"] ("b" :: ["c"])
  /\ edit_content "insert_before" "new" None (Some 2%Z)
       ("a" ++ nl ++ "b" ++ nl ++ "c" ++ nl)
     = inr (join nl ["a"; "new"; "b"; "c"])
  /\ edit_content "insert_after" "new" None (Some 2%Z)
       ("a" ++ nl ++ "b" ++ nl ++ "c" ++ nl)
     = inr (join nl ["a"; "b"; "new"; "c"]).
Proof.
  split; [reflexivity|].
  exact (insert_at_line ("a" ++ nl ++ "b" ++ nl ++ "c" ++ nl) "new" None
           ["a"] "b" ["c"] eq_refl eq_refl).
Defined.

Lemma insert_line_out_of_range_witness :
  (Z.of_nat (List.length (splitlines ("a" ++ nl ++ "b"))) < 3)%Z
  /\ edit_content "insert_before" "new" None (Some 3%Z) ("a" ++ nl ++ "b")
     = inl (Failed MissingField,
            "search_text or valid line_number is required").
Proof.
  split; [reflexivity|].
  exact (proj1 (insert_line_out_of_range ("a" ++ nl ++ "b") "new" None 3
                  eq_refl (or_intror eq_refl))).
Defined.

Lemma get_file_path_accepts_witness :
  @relative_to Sim.platform (Sim.of_string "/srv/docs/tex/paper.tex")
    (Sim.of_string "/srv/docs")
  = inr (Sim.of_string "tex/paper.tex")
  /\ @_get_file_path Sim.platform Sim.server "paper.tex" Sim.boot
     = (inr (Sim.of_string "/srv/docs/tex/paper.tex"),
        @after_resolutions Sim.platform Sim.server "paper.tex" Sim.boot).
Proof.
  split; [vm_compute; reflexivity|].
  assert (Ha : @resolve Sim.platform (fs Sim.boot)
                 (parent (base_path Sim.server))
               = inr (Sim.of_string "/srv/docs"))
    by (vm_compute; reflexivity).
  assert (Hr : @resolve Sim.platform (fs Sim.boot)
                 (locate Sim.server "paper.tex")
               = inr (Sim.of_string "/srv/docs/tex/paper.tex"))
    by (vm_compute; reflexivity).
  assert (Hm : @relative_to Sim.platform
                 (Sim.of_string "/srv/docs/tex/paper.tex")
                 (Sim.of_string "/srv/docs")
               = inr (Sim.of_string "tex/paper.tex"))
    by (vm_compute; reflexivity).
  exact (@get_file_path_accepts Sim.platform Sim.server "paper.tex" Sim.boot
           _ _ _ Ha Hr Hm).
Defined.

(** [read_latex_file] called without a [file_path]. *)
Lemma bad_call_witness :
  mem "file_path" (keys Sim.no_arguments) = false
  /\ @call_tool Sim.platform Sim.server "read_latex_file" Sim.no_arguments
       Sim.boot
     = (inr (Failed InternalException,
             "Error: "
             ++ @type_error Sim.platform ("_" ++ "read_latex_file")
                  (keys Sim.no_arguments)),
        Sim.boot).
Proof.
  split; [reflexivity|].
  apply (@bad_call_is_rejected_before_io Sim.platform Sim.server
           "read_latex_file" Sim.no_arguments Sim.boot).
  - cbn. tauto.
  - right. exists "file_path". split; [cbn; tauto | reflexivity].
Defined.

Lemma unknown_tool_witness :
  @call_tool Sim.platform Sim.server "compile_latex" Sim.no_arguments Sim.boot
  = (inr (Failed UnknownTool, "Unknown tool: " ++ "compile_latex"), Sim.boot).
Proof.
  apply (@unknown_tool_does_nothing Sim.platform Sim.server "compile_latex"
           Sim.no_arguments Sim.boot).
  cbn. intros [H|[H|[H|[H|[H|[H|[]]]]]]]; discriminate H.
Defined.

Lemma create_effect_witness :
  Sim.text_of (Sim.create_run "a.tex" Sim.boot)
  = "Successfully created LaTeX file: "
    ++ @path_str Sim.platform (locate Sim.server "a.tex") ++ nl ++ nl
    ++ "Content:" ++ nl
    ++ _create_latex_template "article" "Test" "" "\today" ""
         (default [] (Some ["amsmath"])) "".
Proof.
  assert (H : Sim.create_run "a.tex" Sim.boot
              = (inr (Success, Sim.text_of (Sim.create_run "a.tex" Sim.boot)),
                 snd (Sim.create_run "a.tex" Sim.boot)))
    by (vm_compute; reflexivity).
  exact (proj1 (@create_effect Sim.platform Sim.server "a.tex" "article"
                  "Test" "" "\today" "" (Some ["amsmath"]) "" _ _ _ H)).
Defined.

Lemma edit_effect_witness :
  exists content content',
    @read_text Sim.platform (fs Sim.boot) (locate Sim.server "paper.tex")
    = inr content
    /\ edit_content "append" "% end" None None content = inr content'
    /\ @write_text Sim.platform (fs Sim.boot) (locate Sim.server "paper.tex")
         content'
       = (None, fs (snd SimFiles.edit_run)).
Proof.
  assert (H : SimFiles.edit_run
              = (inr (Success, Sim.text_of SimFiles.edit_run),
                 snd SimFiles.edit_run))
    by (vm_compute; reflexivity).
  destruct (@edit_effect Sim.platform Sim.server "paper.tex" "append" "% end"
              None None _ _ _ H)
    as (content & content' & _ & R & E & W & _).
  exists content, content'. conjuncts; assumption.
Defined.

Lemma read_resource_rejects_witness :
  startswith "file://" "http://example.org/a.tex" = false
  /\ exists e,
       SimFiles.read_run "http://example.org/a.tex" = (inl e, Sim.boot)
       /\ exn_msg e = "Unsupported URI scheme: http://example.org/a.tex".
Proof.
  split; [reflexivity|].
  exact (@read_resource_rejects_without_io Sim.platform SimFiles.suffix
           "http://example.org/a.tex" Sim.boot (or_introl eq_refl)).
Defined.

(** A document outside the allowed root is read as a resource, while
    [read_latex_file] refuses it. *)
Lemma read_resource_not_confined_witness :
  fst (@_read_latex_file Sim.platform Sim.server "/home/ann/notes.tex"
         SimFiles.elsewhere)
  = inr (Failed PathEscape,
         "Error reading LaTeX file: Path /home/ann/notes.tex is outside the allowed base path (/srv/docs)")
  /\ fst (@read_resource Sim.platform SimFiles.suffix
            ("file://" ++ "/home/ann/notes.tex") SimFiles.elsewhere)
     = inr "private notes".
Proof.
  split; [vm_compute; reflexivity|].
  assert (Hs : (SimFiles.suffix (@path_of Sim.platform "/home/ann/notes.tex")
                =? ".tex") = true) by (vm_compute; reflexivity).
  assert (Hx : @path_exists Sim.platform (fs SimFiles.elsewhere)
                 (@path_of Sim.platform "/home/ann/notes.tex") = true)
    by (vm_compute; reflexivity).
  rewrite (@read_resource_is_not_confined Sim.platform SimFiles.suffix
             "/home/ann/notes.tex" SimFiles.elsewhere Hs Hx).
  vm_compute. reflexivity.
Defined.

End MoreRuns.
